(** * tk-premiere publish hooks: a shallow embedding and its properties

    The repository holds two publish plugins for the Toolkit publisher:

    - [hooks/tk-multi-publish2/basic/publish_render.py]
      (class [PremiereUploadVersionPlugin], "Upload for review"),
    - [hooks/tk-multi-publish2/basic/publish_xml.py]
      (class [PremiereUploadEDLPlugin], "Upload EDL").

    Both are Python.  The embedding below keeps Python's dynamic behaviour
    that the plugins depend on: truthiness, [dict.get] against subscripting,
    negative list indices, module-level name resolution, exceptions, and the
    order in which a plugin talks to the host (logger, template service,
    Premiere bridge, base plugin class, ShotGrid client) and annotates the
    item. *)

From Stdlib Require Import ZArith String Ascii List Bool Lia.
From stdpp Require Import gmap strings list fin_maps.

#[local] Set Warnings "-register-all".
#[local] Open Scope string_scope.
#[local] Open Scope Z_scope.

(** ** Python values *)

(** What a callback stored in a log record can be: the default
    [lambda: engine.save_as()], or a method picked from an engine app. *)
Inductive Callable :=
| LambdaEngineSaveAs
| BoundMethod (app meth : string).

(** The values that travel through settings, item properties and payloads.
    [VObj] is a handle on an object owned by the host (a template). *)
Inductive val :=
| VNone
| VBool (b : bool)
| VInt (n : Z)
| VStr (s : string)
| VList (l : list val)
| VDict (d : gmap string val)
| VObj (handle : nat)
| VCallable (c : Callable).

(** Python truth value testing ([if x:], [not x]). *)
Definition truthy (v : val) : bool :=
  match v with
  | VNone => false
  | VBool b => b
  | VInt n => negb (n =? 0)
  | VStr s => negb (String.eqb s "")
  | VList l => match l with [] => false | _ => true end
  | VDict d => negb (bool_decide (d = ∅))
  | VObj _ => true
  | VCallable _ => true
  end.

(** Truth value of an [Optional[str]] such as [engine.project_path]. *)
Definition truthy_path (p : option string) : bool :=
  match p with
  | None => false
  | Some s => negb (String.eqb s "")
  end.

Definition of_path (p : option string) : val :=
  match p with
  | None => VNone
  | Some s => VStr s
  end.

(** ** Exceptions *)

Inductive exn :=
| NameError (name : string)          (* unresolved module-level name *)
| IndexError                         (* list index out of range *)
| KeyError (key : string)            (* dict subscript on a missing key *)
| AttributeError (attr : string)     (* attribute read on None *)
| TypeError
| ValueError
| UserException (cls msg : string)   (* raise Cls(msg) for a class of the module *)
| HostError (msg : string).          (* raised inside a collaborator *)

Inductive outcome (A : Type) :=
| Return (a : A)
| Raise (e : exn).
Arguments Return {A} a.
Arguments Raise {A} e.

(** ** Strings: [str.split], indexing, [int] *)

(** [s.split(sep)] for a one-character separator: never empty, one more
    part than there are separators. *)
Fixpoint split (sep : ascii) (s : string) : list string :=
  match s with
  | EmptyString => [EmptyString]
  | String c s' =>
      if Ascii.eqb c sep then EmptyString :: split sep s'
      else match split sep s' with
           | p :: ps => String c p :: ps
           | [] => [String c EmptyString]
           end
  end.

(** [l[i]] for [i >= 0]. *)
Definition index {A} (l : list A) (i : nat) : outcome A :=
  match l !! i with
  | Some x => Return x
  | None => Raise IndexError
  end.

(** [l[-1]]. *)
Definition index_last {A} (l : list A) : outcome A :=
  match last l with
  | Some x => Return x
  | None => Raise IndexError
  end.

Definition is_digit (c : ascii) : bool :=
  let n := nat_of_ascii c in (48 <=? n)%nat && (n <=? 57)%nat.

Definition digit_value (c : ascii) : Z := Z.of_nat (nat_of_ascii c) - 48.

Fixpoint digits_value (acc : Z) (s : list ascii) : Z :=
  match s with
  | [] => acc
  | c :: s' => digits_value (10 * acc + digit_value c) s'
  end.

(** [int(s)] on the strings the plugins pass to it: runs of ASCII digits.
    Anything else is reported as [ValueError] (Python would also accept a
    sign, surrounding blanks and underscores; those never come out of the
    digit patterns below). *)
Definition int (s : list ascii) : outcome Z :=
  match s with
  | [] => Raise ValueError
  | _ => if forallb is_digit s then Return (digits_value 0 s) else Raise ValueError
  end.

(** ** Regular expressions: the fragment of [re] the plugins use *)

(** The three patterns are sequences of one-character classes, each with a
    repeat count: [v[0-9]+], [[0-9]+] and [[0-9]{3}]. *)
Inductive cclass :=
| Lit (c : ascii)
| Range (lo hi : ascii).

Record atom := Atom { cls : cclass; rmin : nat; rmax : option nat }.

Definition regex := list atom.

Definition in_class (k : cclass) (c : ascii) : bool :=
  match k with
  | Lit a => Ascii.eqb c a
  | Range lo hi =>
      (nat_of_ascii lo <=? nat_of_ascii c)%nat && (nat_of_ascii c <=? nat_of_ascii hi)%nat
  end.

(** Length of the longest prefix of [s] inside class [k], capped by [cap]. *)
Fixpoint run_length (k : cclass) (cap : option nat) (s : list ascii) : nat :=
  match s with
  | [] => O
  | c :: s' =>
      if in_class k c then
        match cap with
        | Some O => O
        | Some (S n) => S (run_length k (Some n) s')
        | None => S (run_length k None s')
        end
      else O
  end.

(** Anchored match at the head of [s]: greedy repeats with backtracking, as
    in [re]; the result is the matched text and what follows it. *)
Fixpoint match_here (r : regex) (s : list ascii) : option (list ascii * list ascii) :=
  match r with
  | [] => Some ([], s)
  | a :: r' =>
      (fix try (k : nat) : option (list ascii * list ascii) :=
         let here :=
           if (rmin a <=? k)%nat then
             match match_here r' (skipn k s) with
             | Some (m, rest) => Some ((firstn k s ++ m)%list, rest)
             | None => None
             end
           else None in
         match here with
         | Some x => Some x
         | None => match k with O => None | S k' => try k' end
         end) (run_length (cls a) (rmax a) s)
  end.

(** [re.findall]: scan left to right, keep each match, resume after it.
    [skip] counts the characters of the last match still to step over. *)
Fixpoint findall_from (r : regex) (s : list ascii) (skip : nat) : list (list ascii) :=
  match s with
  | [] =>
      match skip, match_here r [] with
      | O, Some (m, _) => [m]
      | _, _ => []
      end
  | _ :: s' =>
      match skip with
      | S k => findall_from r s' k
      | O =>
          match match_here r s with
          | Some (m, _) => m :: findall_from r s' (length m - 1)
          | None => findall_from r s' O
          end
      end
  end.

Definition findall (r : regex) (s : list ascii) : list (list ascii) :=
  findall_from r s O.

Definition digit : cclass := Range "0" "9".

(** r'v[0-9]+' *)
Definition re_v_digits : regex := [Atom (Lit "v") 1 (Some 1%nat); Atom digit 1 None].
(** r'[0-9]+' *)
Definition re_digits : regex := [Atom digit 1 None].
(** r'[0-9]{3}' *)
Definition re_3digits : regex := [Atom digit 3 (Some 3%nat)].

Definition chars (s : string) : list ascii := list_ascii_of_string s.
Definition str (l : list ascii) : string := string_of_list_ascii l.


(** ** The objects the host hands to a plugin *)

(** [item.context]: each of the three links is an entity dictionary or
    [None]. *)
Record Context := { entity : val; project : val; task : val }.

Record Item := {
  name : string;
  description : val;
  context : Context;
  properties : gmap string val;
  context_change_allowed : bool
}.

(** A [Setting] instance; the plugins only read its [value]. *)
Record Setting := { value : val }.

(** An app registered on the engine, seen through [hasattr]. *)
Record App := { app_attrs : list string }.

Definition hasattr (a : App) (attr : string) : bool :=
  existsb (String.eqb attr) (app_attrs a).

Inductive LogLevel := Debug | Info | Warning | Error.

(** What a plugin does to the outside, in program order: calls on the
    logger, the template service, the Premiere bridge, the base class and
    the ShotGrid client, and the annotations it writes on the item. *)
Inductive Event :=
| EvLog (lvl : LogLevel) (msg : string) (extra : val)
| EvSetAttr (attr : string) (v : val)
| EvSetProperty (key : string) (v : val)
| EvApplyFields (template : val) (fields : gmap string val)
| EvExportAsMediaDirect (path : val) (preset : string) (mode : Z)
| EvExportAsFinalCutProXML (path : val) (mode : Z)
| EvSuperValidate (it : Item)
| EvSuperPublish (it : Item)
| EvCreate (entity_type : string) (data : gmap string val)
| EvUpload (entity_type : string) (id : val) (path : string) (field : string).

(** The collaborators, as far as the plugins call them.  Queries are total
    functions; the export commands, the base class and the ShotGrid calls
    may raise, and the base class may annotate the item. *)
Record Host := {
  project_path : option string;                            (* engine.project_path *)
  engine_apps : gmap string App;                           (* engine.apps *)
  get_template_by_name : val -> val;                       (* engine.get_template_by_name *)
  ShotgunPath_normalize : string -> string;                (* sgtk.util.ShotgunPath.normalize *)
  os_path_basename : string -> string;                     (* os.path.basename *)
  template_validate : val -> string -> bool;               (* template.validate(path) *)
  as_template_fields : Context -> val -> gmap string val;  (* context.as_template_fields *)
  apply_fields : val -> gmap string val -> option string;  (* template.apply_fields *)
  exportAsMediaDirect : val -> string -> Z -> outcome unit;
  exportAsFinalCutProXML : val -> Z -> outcome unit;
  get_file_path_components : string -> val;                (* publisher.util *)
  pformat : gmap string val -> string;                     (* pprint.pformat *)
  base_validate : gmap string Setting -> Item -> outcome val * Item;
  base_publish : gmap string Setting -> Item -> outcome unit * Item;
  shotgun_create : string -> gmap string val -> outcome val;
  shotgun_upload : string -> val -> string -> string -> outcome unit
}.

(** ** A state and exception monad for method bodies *)

Record State := { item : Item; trace : list Event }.

Definition M (A : Type) : Type := State -> outcome A * State.

Definition ret {A} (a : A) : M A := fun st => (Return a, st).

Definition raise {A} (e : exn) : M A := fun st => (Raise e, st).

Definition bind {A B} (m : M A) (k : A -> M B) : M B :=
  fun st =>
    match m st with
    | (Return a, st') => k a st'
    | (Raise e, st') => (Raise e, st')
    end.

Notation "x <- m ;; k" := (bind m (fun x => k))
  (at level 100, m at next level, right associativity).
Notation "m ;; k" := (bind m (fun _ => k))
  (at level 100, right associativity).

Definition lift {A} (o : outcome A) : M A := fun st => (o, st).

Definition get_item : M Item := fun st => (Return (item st), st).

Definition emit (e : Event) : M unit :=
  fun st => (Return tt, {| item := item st; trace := trace st ++ [e] |}).

Definition put_item (it : Item) : M unit :=
  fun st => (Return tt, {| item := it; trace := trace st |}).

Definition with_properties (it : Item) (p : gmap string val) : Item :=
  {| name := name it; description := description it; context := context it;
     properties := p; context_change_allowed := context_change_allowed it |}.

Definition with_name (it : Item) (n : string) : Item :=
  {| name := n; description := description it; context := context it;
     properties := properties it; context_change_allowed := context_change_allowed it |}.

Definition with_context_change_allowed (it : Item) (b : bool) : Item :=
  {| name := name it; description := description it; context := context it;
     properties := properties it; context_change_allowed := b |}.

(** [item.properties[key] = v] *)
Definition set_property (key : string) (v : val) : M unit :=
  it <- get_item ;;
  put_item (with_properties it (<[key := v]> (properties it))) ;;
  emit (EvSetProperty key v).

(** [item.properties[key]] *)
Definition property (key : string) : M val :=
  it <- get_item ;;
  match properties it !! key with
  | Some v => ret v
  | None => raise (KeyError key)
  end.

(** [item.properties.get(key, dflt)] *)
Definition property_get (key : string) (dflt : val) : M val :=
  it <- get_item ;;
  ret (default dflt (properties it !! key)).

(** [v[key]] *)
Definition subscript (v : val) (key : string) : outcome val :=
  match v with
  | VDict d => match d !! key with
               | Some x => Return x
               | None => Raise (KeyError key)
               end
  | _ => Raise TypeError
  end.

(** [v[key] = x]; the dictionary is returned updated. *)
Definition store_subscript (v : val) (key : string) (x : val) : outcome val :=
  match v with
  | VDict d => Return (VDict (<[key := x]> d))
  | _ => Raise TypeError
  end.

(** The elements [list.extend] draws from its argument.  The plugins pass it
    a list; for the other iterables the model is coarser than Python: a
    dictionary gives its keys in key order (Python: insertion order) and a
    string its bytes (Python: code points). *)
Definition iterate (v : val) : outcome (list val) :=
  match v with
  | VList l => Return l
  | VStr s => Return (map (fun c => VStr (String c EmptyString)) (chars s))
  | VDict d => Return (map (fun kv => VStr (fst kv)) (map_to_list d))
  | _ => Raise TypeError
  end.

(** [self.logger.<lvl>(msg, extra=extra)] *)
Definition log (lvl : LogLevel) (msg : string) (extra : val) : M unit :=
  emit (EvLog lvl msg extra).

(** Reading a module-level name: it must be bound in the module. *)
Definition global (globals : list string) (id : string) : M unit :=
  if existsb (String.eqb id) globals then ret tt else raise (NameError id).

(** [settings.get("Publish Template").value] *)
Definition publish_template_setting_value (settings : gmap string Setting) : M val :=
  match settings !! "Publish Template" with
  | Some s => ret (value s)
  | None => raise (AttributeError "value")
  end.

(** The value of a [str] path, once it is known not to be [None]. *)
Definition path_text (p : option string) : string := default "" p.

(** ** What the two classes share

    [accept], [validate], [_get_version_entity] and [__get_save_as_action]
    have the same text in both files, up to the class named in [super(...)]
    and the display name; they are written once, over the display name and
    the names bound at module level. *)

Section Lifecycle.

Variable self_name : string.        (* the [name] property *)
Variable class_name : string.
Variable globals : list string.
Variable h : Host.

(** [__get_save_as_action] *)
Definition __get_save_as_action : val :=
  let callback :=
    match engine_apps h !! "tk-multi-workfiles2" with
    | Some app =>
        if hasattr app "show_file_save_dlg"
        then BoundMethod "tk-multi-workfiles2" "show_file_save_dlg"
        else LambdaEngineSaveAs
    | None => LambdaEngineSaveAs
    end in
  VDict {[ "action_button" :=
             VDict {[ "label" := VStr "Save As...";
                      "tooltip" := VStr "Save the active project";
                      "callback" := VCallable callback ]} ]}.

(** [_get_version_entity] *)
Definition _get_version_entity : M val :=
  it <- get_item ;;
  if truthy (entity (context it)) then ret (entity (context it))
  else if truthy (project (context it)) then ret (project (context it))
  else ret VNone.

(** [accept] *)
Definition accept (settings : gmap string Setting) : M val :=
  let path := project_path h in
  v <- publish_template_setting_value settings ;;
  (if truthy v then
     it <- get_item ;;
     put_item (with_context_change_allowed it false) ;;
     emit (EvSetAttr "context_change_allowed" (VBool false))
   else ret tt) ;;
  (if negb (truthy_path path) then
     log Warning "The Premiere project has not been saved." __get_save_as_action
   else ret tt) ;;
  log Info ("Premiere '" +:+ self_name +:+ "' plugin accepted.") VNone ;;
  ret (VDict {[ "accepted" := VBool true; "checked" := VBool true ]}).

(** The [extra] of the work-template warning in [validate]. *)
Definition save_file_action : val :=
  VDict {[ "action_button" :=
             VDict {[ "label" := VStr "Save File";
                      "tooltip" := VStr "Save the current Premiere projectto a different file name";
                      "callback" := __get_save_as_action ]} ]}.

(** First statements of [validate] and [publish]: populate the publish
    template on the item if found. *)
Definition populate_publish_template (settings : gmap string Setting) : M unit :=
  v <- publish_template_setting_value settings ;;
  let publish_template := get_template_by_name h v in
  if truthy publish_template
  then set_property "publish_template" publish_template
  else ret tt.

(** [super(<class>, self).validate(settings, item)] *)
Definition super_validate (settings : gmap string Setting) : M val :=
  global globals class_name ;;
  it <- get_item ;;
  emit (EvSuperValidate it) ;;
  let '(r, it') := base_validate h settings it in
  put_item it' ;;
  lift r.

(** [super(<class>, self).publish(settings, item)] *)
Definition super_publish (settings : gmap string Setting) : M unit :=
  global globals class_name ;;
  it <- get_item ;;
  emit (EvSuperPublish it) ;;
  let '(r, it') := base_publish h settings it in
  put_item it' ;;
  lift r.

(** [validate] *)
Definition validate (settings : gmap string Setting) : M val :=
  let path := project_path h in
  if negb (truthy_path path) then
    it <- get_item ;;
    let error_msg := "The Premiere project '" +:+ name it +:+ "' has not been saved." in
    log Error error_msg __get_save_as_action ;;
    global globals "ProjectUnsavedError" ;;
    raise (UserException "ProjectUnsavedError" error_msg)
  else
    global globals "sgtk" ;;
    let path := ShotgunPath_normalize h (path_text path) in
    work_template <- property_get "work_template" VNone ;;
    (if truthy work_template then
       if negb (template_validate h work_template path) then
         log Warning
           "The current project does not match the configured work template."
           save_file_action
       else
         log Debug "Work template configured and matches project path." VNone
     else
       log Debug "No work template configured." VNone) ;;
    populate_publish_template settings ;;
    global globals "os" ;;
    it <- get_item ;;
    put_item (with_name it (os_path_basename h path)) ;;
    emit (EvSetAttr "name" (VStr (os_path_basename h path))) ;;
    set_property "path" (VStr path) ;;
    super_validate settings.

End Lifecycle.

(** Running a method on an item, from an empty trace. *)
Definition run {A} (m : M A) (it : Item) : outcome A * State :=
  m {| item := it; trace := [] |}.

Definition result {A} (r : outcome A * State) : outcome A := fst r.
Definition final_item {A} (r : outcome A * State) : Item := item (snd r).
Definition events {A} (r : outcome A * State) : list Event := trace (snd r).

(** ** publish_render.py *)

Module PremiereUploadVersionPlugin.

(** Names bound at module level: the imports, [HookBaseClass] and the
    class itself. *)
Definition module_globals : list string :=
  ["os"; "re"; "pprint"; "tempfile"; "uuid"; "sys"; "sgtk"; "six";
   "HookBaseClass"; "PremiereUploadVersionPlugin"].

Definition preset : string :=
  "C:\Program Files\Adobe\Adobe Premiere Pro 2023\Settings\EncoderPresets\ConsolidateAndTranscode\Match Source - DNxHD.epr".

(** Lines 267-270: the name before the first dot, and the digits of the
    last [v<digits>] of the item name. *)
Definition derive_name_version (globals : list string) (item_name : string)
  : M (string * Z) :=
  name <- lift (index (split "." item_name) 0) ;;
  global globals "re" ;;
  version <- lift (index_last (findall re_v_digits (chars item_name))) ;;
  version <- lift (index_last (findall re_digits version)) ;;
  version <- lift (int version) ;;
  ret (name, version).

(** Lines 289-352: what [publish] does once the movie path is known. *)
Definition register_and_upload (globals : list string) (h : Host)
    (settings : gmap string Setting) (path_to_movie : string) : M val :=
  let path_components := get_file_path_components h path_to_movie in
  publish_name <- lift (subscript path_components "filename") ;;
  log Info "Creating Version..." VNone ;;
  it <- get_item ;;
  linked <- _get_version_entity ;;
  let version_data : gmap string val :=
    {[ "project" := project (context it);
       "code" := publish_name;
       "description" := description it;
       "entity" := linked;
       "sg_task" := task (context it);
       "sg_path_to_movie" := VStr path_to_movie ]} in
  set_property "path" (VStr path_to_movie) ;;
  set_property "publish_type" (VStr "Rendered Image") ;;
  upstream <- _get_version_entity ;;
  publish_data <- property "sg_publish_data" ;;
  publish_data <- lift (store_subscript publish_data "upstream_published_files" upstream) ;;
  it <- get_item ;;
  put_item (with_properties it (<["sg_publish_data" := publish_data]> (properties it))) ;;
  emit (EvSetProperty "sg_publish_data" publish_data) ;;
  super_publish "PremiereUploadVersionPlugin" globals h settings ;;
  publish_data <- property_get "sg_publish_data" VNone ;;
  rendering_data <- property_get "published_renderings" (VList []) ;;
  let published_files := if truthy publish_data then [publish_data] else [] in
  renderings <- lift (iterate rendering_data) ;;
  let version_data :=
    <["published_files" := VList (published_files ++ renderings)]> version_data in
  global globals "pprint" ;;
  log Debug "Populated Version data..."
    (VDict {[ "action_show_more_info" :=
                VDict {[ "label" := VStr "Version Data";
                         "tooltip" := VStr "Show the complete Version data dictionary";
                         "text" := VStr ("<pre>" +:+ pformat h version_data +:+ "</pre>") ]} ]}) ;;
  log Info "Creating version for review..." VNone ;;
  emit (EvCreate "Version" version_data) ;;
  version <- lift (shotgun_create h "Version" version_data) ;;
  set_property "sg_version_data" version ;;
  global globals "six" ;;
  let upload_path := path_to_movie in
  log Info "Uploading content..." VNone ;;
  id <- lift (subscript version "id") ;;
  emit (EvUpload "Version" id upload_path "sg_uploaded_movie") ;;
  lift (shotgun_upload h "Version" id upload_path "sg_uploaded_movie") ;;
  log Info "Upload complete!" VNone ;;
  set_property "upload_path" (VStr upload_path) ;;
  ret VNone.

(** Lines 272-287, then the rest: render the path, export, and stop if
    there is no path. *)
Definition export_and_publish (globals : list string) (h : Host)
    (settings : gmap string Setting) (nv : string * Z) : M val :=
  template <- property "publish_template" ;;
  it <- get_item ;;
  let fields := as_template_fields h (context it) template in
  let fields := <["name" := VStr (fst nv)]> fields in
  let fields := <["version" := VInt (snd nv)]> fields in
  emit (EvApplyFields template fields) ;;
  let path_to_movie := apply_fields h template fields in
  emit (EvExportAsMediaDirect (of_path path_to_movie) preset 2) ;;
  lift (exportAsMediaDirect h (of_path path_to_movie) preset 2) ;;
  match path_to_movie with
  | None => log Error "No render path found" VNone ;; ret VNone
  | Some path_to_movie => register_and_upload globals h settings path_to_movie
  end.

(** [publish], over the names bound at module level. *)
Definition publish_in (globals : list string) (h : Host)
    (settings : gmap string Setting) : M val :=
  populate_publish_template h settings ;;
  it <- get_item ;;
  nv <- derive_name_version globals (name it) ;;
  export_and_publish globals h settings nv.

(** The class as loaded: its methods over the module's own names. *)
Definition name : string := "Upload for review".
Definition publish := publish_in module_globals.
Definition accept := accept name.
Definition validate := validate "PremiereUploadVersionPlugin" module_globals.
Definition _get_version_entity := _get_version_entity.

End PremiereUploadVersionPlugin.

(** ** publish_xml.py *)

Module PremiereUploadEDLPlugin.

(** Names bound at module level, lines 11-20: [re] is not among the
    imports. *)
Definition module_globals : list string :=
  ["os"; "pprint"; "tempfile"; "uuid"; "sys"; "sgtk"; "six";
   "HookBaseClass"; "PremiereUploadEDLPlugin"].

(** Lines 257-259. *)
Definition derive_name_version (globals : list string) (item_name : string)
  : M (string * Z) :=
  name <- lift (index (split "." item_name) 0) ;;
  version <- lift (index (split "." item_name) 1) ;;
  global globals "re" ;;
  version <- lift (index_last (findall re_3digits (chars name))) ;;
  version <- lift (int version) ;;
  ret (name, version).

(** Lines 261-281. *)
Definition export_and_publish (globals : list string) (h : Host)
    (settings : gmap string Setting) (nv : string * Z) : M val :=
  template <- property "publish_template" ;;
  it <- get_item ;;
  let fields := as_template_fields h (context it) template in
  let fields := <["name" := VStr (fst nv)]> fields in
  let fields := <["version" := VInt (snd nv)]> fields in
  emit (EvApplyFields template fields) ;;
  let path_to_xml := apply_fields h template fields in
  emit (EvExportAsFinalCutProXML (of_path path_to_xml) 1) ;;
  lift (exportAsFinalCutProXML h (of_path path_to_xml) 1) ;;
  match path_to_xml with
  | None => log Error "No render path found" VNone ;; ret VNone
  | Some path_to_xml =>
      set_property "path" (VStr path_to_xml) ;;
      set_property "publish_type" (VStr "Rendered Image") ;;
      super_publish "PremiereUploadEDLPlugin" globals h settings ;;
      log Info "Publish complete!" VNone ;;
      ret VNone
  end.

(** [publish], over the names bound at module level. *)
Definition publish_in (globals : list string) (h : Host)
    (settings : gmap string Setting) : M val :=
  populate_publish_template h settings ;;
  it <- get_item ;;
  nv <- derive_name_version globals (name it) ;;
  export_and_publish globals h settings nv.

(** The class as loaded: its methods over the module's own names. *)
Definition name : string := "Upload EDL".
Definition publish := publish_in module_globals.
Definition accept := accept name.
Definition validate := validate "PremiereUploadEDLPlugin" module_globals.
Definition _get_version_entity := _get_version_entity.

End PremiereUploadEDLPlugin.

(** ** Notions the properties are stated with *)

(** The part of [s] before the first [sep] (all of [s] if there is none). *)
Fixpoint before_first (sep : ascii) (s : string) : string :=
  match s with
  | EmptyString => EmptyString
  | String c s' => if Ascii.eqb c sep then EmptyString else String c (before_first sep s')
  end.

(** [sep in s] *)
Definition contains (sep : ascii) (s : string) : bool :=
  existsb (fun c => Ascii.eqb c sep) (chars s).

(** A run of decimal digits, at least one. *)
Definition digit_run (ds : list ascii) : Prop :=
  ds <> [] /\ forallb is_digit ds = true.

(** The calls that register, create or upload something. *)
Definition registers (e : Event) : bool :=
  match e with
  | EvSuperPublish _ | EvCreate _ _ | EvUpload _ _ _ _ => true
  | _ => false
  end.

(** The calls that render the template or drive the Premiere export. *)
Definition renders_or_exports (e : Event) : bool :=
  match e with
  | EvApplyFields _ _ | EvExportAsMediaDirect _ _ _ | EvExportAsFinalCutProXML _ _ => true
  | _ => false
  end.

(** Statement of the order "create, upload, and only then store the version
    data on the item": every store of [sg_version_data] comes after every
    upload. *)
Definition version_data_stored_after_upload (tr : list Event) : Prop :=
  forall i j v id p f,
    tr !! i = Some (EvSetProperty "sg_version_data" v) ->
    tr !! j = Some (EvUpload "Version" id p f) ->
    (j < i)%nat.

(** The item and the trace after [populate_publish_template]: at most the
    [publish_template] property is written. *)
Definition populated (h : Host) (s : Setting) (it : Item) : Item :=
  if truthy (get_template_by_name h (value s))
  then with_properties it (<["publish_template" := get_template_by_name h (value s)]> (properties it))
  else it.

Definition populate_events (h : Host) (s : Setting) : list Event :=
  if truthy (get_template_by_name h (value s))
  then [EvSetProperty "publish_template" (get_template_by_name h (value s))]
  else [].

(** ** What the methods return, log and hand on *)

(** The dictionary [accept] returns. *)
Definition accepted : val := VDict {[ "accepted" := VBool true; "checked" := VBool true ]}.

(** The warning of [accept] and the message of [validate] for a project
    without a path. *)
Definition unsaved_warning (h : Host) : Event :=
  EvLog Warning "The Premiere project has not been saved." (__get_save_as_action h).

Definition unsaved_message (it : Item) : string :=
  "The Premiere project '" +:+ name it +:+ "' has not been saved.".

(** The warning of [validate] for a path outside the work template. *)
Definition mismatch_warning (h : Host) : Event :=
  EvLog Warning "The current project does not match the configured work template."
    (save_file_action h).

(** The item as [validate] hands it to the base class for project path [p]. *)
Definition validated (h : Host) (s : Setting) (p : string) (it : Item) : Item :=
  let path := ShotgunPath_normalize h p in
  let it1 := with_name (populated h s it) (os_path_basename h path) in
  with_properties it1 (<["path" := VStr path]> (properties it1)).

(** The value of [_get_version_entity] on a context. *)
Definition version_entity (c : Context) : val :=
  if truthy (entity c) then entity c
  else if truthy (project c) then project c
  else VNone.

(** The field mapping handed to [apply_fields]. *)
Definition template_fields (h : Host) (it : Item) (t : val) (nm : string) (ver : Z)
  : gmap string val :=
  <["version" := VInt ver]> (<["name" := VStr nm]> (as_template_fields h (context it) t)).

(** The item as the movie plugin hands it to the base class [publish], for
    movie path [p] and a [sg_publish_data] dictionary [d] found on it. *)
Definition staged (it : Item) (p : string) (d : gmap string val) : Item :=
  with_properties it
    (<["sg_publish_data" := VDict (<["upstream_published_files" := version_entity (context it)]> d)]>
       (<["publish_type" := VStr "Rendered Image"]>
          (<["path" := VStr p]> (properties it)))).

(** The published files listed in the Version payload, read from the item
    as the base class leaves it. *)
Definition published_files (it' : Item) (renderings : list val) : list val :=
  (if truthy (default VNone (properties it' !! "sg_publish_data"))
   then [default VNone (properties it' !! "sg_publish_data")] else [])
  ++ renderings.

(** The Version payload: six fields read from the item [it] before the base
    class runs, and the published files. *)
Definition version_payload (it : Item) (code : val) (p : string) (files : list val)
  : gmap string val :=
  <["published_files" := VList files]>
    ({[ "project" := project (context it);
        "code" := code;
        "description" := description it;
        "entity" := version_entity (context it);
        "sg_task" := task (context it);
        "sg_path_to_movie" := VStr p ]} : gmap string val).

(** The [extra] of the debug record that shows the payload. *)
Definition show_more_info (h : Host) (payload : gmap string val) : val :=
  VDict {[ "action_show_more_info" :=
             VDict {[ "label" := VStr "Version Data";
                      "tooltip" := VStr "Show the complete Version data dictionary";
                      "text" := VStr ("<pre>" +:+ pformat h payload +:+ "</pre>") ]} ]}.

(** The calls and annotations of lines 289-352, in program order. *)
Definition register_and_upload_events (h : Host) (it it' : Item) (p : string)
    (d : gmap string val) (code : val) (renderings : list val) (version id : val)
  : list Event :=
  let payload := version_payload it code p (published_files it' renderings) in
  [EvLog Info "Creating Version..." VNone;
   EvSetProperty "path" (VStr p);
   EvSetProperty "publish_type" (VStr "Rendered Image");
   EvSetProperty "sg_publish_data"
     (VDict (<["upstream_published_files" := version_entity (context it)]> d));
   EvSuperPublish (staged it p d);
   EvLog Debug "Populated Version data..." (show_more_info h payload);
   EvLog Info "Creating version for review..." VNone;
   EvCreate "Version" payload;
   EvSetProperty "sg_version_data" version;
   EvLog Info "Uploading content..." VNone;
   EvUpload "Version" id p "sg_uploaded_movie";
   EvLog Info "Upload complete!" VNone;
   EvSetProperty "upload_path" (VStr p)].

(** The names of publish_xml.py, had it imported [re] as publish_render.py
    does. *)
Definition module_globals_with_re : list string :=
  "re" :: PremiereUploadEDLPlugin.module_globals.

(** ** Sample inputs *)

Definition ex_setting : Setting := {| value := VStr "premiere_publish" |}.

Definition ex_settings : gmap string Setting := {[ "Publish Template" := ex_setting ]}.

Definition ex_shot : val :=
  VDict {[ "type" := VStr "Shot"; "id" := VInt 7; "name" := VStr "shot010" ]}.

Definition ex_project : val :=
  VDict {[ "type" := VStr "Project"; "id" := VInt 1; "name" := VStr "demo" ]}.

Definition ex_context : Context :=
  {| entity := ex_shot; project := ex_project; task := VNone |}.

(** An item as the collector and an earlier publish plugin leave it. *)
Definition ex_item : Item :=
  {| name := "shot010_v003.prproj";
     description := VStr "first cut";
     context := ex_context;
     properties := {[ "work_template" := VObj 2;
                      "sg_publish_data" := VDict {[ "id" := VInt 11 ]} ]};
     context_change_allowed := true |}.

(** The same item before anything was published for it. *)
Definition ex_item_fresh : Item := with_properties ex_item {[ "work_template" := VObj 2 ]}.

Definition ex_item_edl : Item := with_name ex_item "shot010.010.prproj".

Definition ex_item_no_dot : Item := with_name ex_item "shot010".

(** A host where every collaborator answers; [path] is the project path and
    [rendered] what the publish template renders. *)
Definition ex_host_with (path rendered : option string) : Host :=
  {| project_path := path;
     engine_apps := ∅;
     get_template_by_name := fun v => match v with VStr _ => VObj 1 | _ => VNone end;
     ShotgunPath_normalize := fun s => s;
     os_path_basename := fun _ => "shot010_v003.prproj";
     template_validate := fun _ _ => false;
     as_template_fields := fun _ _ => {[ "Shot" := VStr "shot010" ]};
     apply_fields := fun _ _ => rendered;
     exportAsMediaDirect := fun _ _ _ => Return tt;
     exportAsFinalCutProXML := fun _ _ => Return tt;
     get_file_path_components := fun _ => VDict {[ "filename" := VStr "shot010_v003.mov" ]};
     pformat := fun _ => "{...}";
     base_validate := fun _ it => (Return (VBool true), it);
     base_publish := fun _ it => (Return tt, it);
     shotgun_create := fun _ d => Return (VDict (<["id" := VInt 42]> d));
     shotgun_upload := fun _ _ _ _ => Return tt |}.

Definition ex_host : Host :=
  ex_host_with (Some "/work/shot010_v003.prproj") (Some "/publish/shot010_v003.mov").

Definition ex_host_unsaved : Host :=
  ex_host_with None (Some "/publish/shot010_v003.mov").

Definition ex_host_no_render : Host :=
  ex_host_with (Some "/work/shot010_v003.prproj") None.

Definition ex_state (it : Item) : State := {| item := it; trace := [] |}.

(** Items whose context has no entity, and neither entity nor project. *)
Definition ex_item_project_only : Item :=
  {| name := "cut_v001.prproj"; description := VNone;
     context := {| entity := VNone; project := ex_project; task := VNone |};
     properties := ∅; context_change_allowed := true |}.

Definition ex_item_unlinked : Item :=
  {| name := "cut_v001.prproj"; description := VNone;
     context := {| entity := VNone; project := VNone; task := VNone |};
     properties := ∅; context_change_allowed := true |}.

Definition ex_movie_path : string := "/publish/shot010_v003.mov".

Definition ex_publish_data : gmap string val := {[ "id" := VInt 11 ]}.

(** What the sample ShotGrid client answers to the create call. *)
Definition ex_version : val :=
  VDict (<["id" := VInt 42]>
           (version_payload ex_item (VStr "shot010_v003.mov") ex_movie_path
              (published_files (staged (populated ex_host ex_setting ex_item)
                                  ex_movie_path ex_publish_data) []))).

(** ** The [settings] and [item_filters] properties

    Both classes carry the same text for them. *)

Module HookProperties.

(** The settings specific to the class. *)
Definition premiere_publish_settings : gmap string val :=
  {[ "Publish Template" :=
       VDict {[ "type" := VStr "template";
                "default" := VNone;
                "description" :=
                  VStr "Template path for published work files. Shouldcorrespond to a template defined in templates.yml." ]} ]}.

(** [settings], over what [super(...).settings] gives: [base or {}], then
    [dict.update], which lets the class's entries win. *)
Definition settings (base : val) : outcome val :=
  let base_settings := if truthy base then base else VDict ∅ in
  match base_settings with
  | VDict d => Return (VDict (premiere_publish_settings ∪ d))
  | _ => Raise (AttributeError "update")
  end.

(** [item_filters] *)
Definition item_filters : list string := ["premiere.project"].

End HookProperties.

(** ** More notions for the properties *)

(** A settings dictionary as the publisher builds it from a declared schema:
    one [Setting] for each declared key. *)
Definition conforms (settings : gmap string Setting) (schema : gmap string val) : Prop :=
  forall key, is_Some (schema !! key) -> is_Some (settings !! key).

(** The one log record [validate] writes about the work template, for the
    normalized project path [path]. *)
Definition work_template_record (h : Host) (it : Item) (path : string) : Event :=
  let work_template := default VNone (properties it !! "work_template") in
  if truthy work_template then
    if negb (template_validate h work_template path) then mismatch_warning h
    else EvLog Debug "Work template configured and matches project path." VNone
  else EvLog Debug "No work template configured." VNone.

(** The log-action dictionary built around a callback. *)
Definition save_as_action_with (c : Callable) : val :=
  VDict {[ "action_button" :=
             VDict {[ "label" := VStr "Save As...";
                      "tooltip" := VStr "Save the active project";
                      "callback" := VCallable c ]} ]}.

(** The "Save File" button of the work-template warning, around what is put
    under its "callback". *)
Definition save_file_action_with (callback : val) : val :=
  VDict {[ "action_button" :=
             VDict {[ "label" := VStr "Save File";
                      "tooltip" := VStr "Save the current Premiere projectto a different file name";
                      "callback" := callback ]} ]}.

(** [extra["action_button"]["callback"]] of a log record. *)
Definition callback_of (extra : val) : outcome val :=
  match subscript extra "action_button" with
  | Return button => subscript button "callback"
  | Raise e => Raise e
  end.

(** The text has a [v] directly followed by a decimal digit. *)
Definition has_version_tag (s : list ascii) : Prop :=
  exists pre d post, s = (pre ++ "v"%char :: d :: post)%list /\ is_digit d = true.

(** The calls of the movie plugin's [publish] on its collaborators, by the
    stage they mark. *)
Inductive Stage := Rendered | Exported | Registered | Created | Uploaded.

Definition stage (e : Event) : option Stage :=
  match e with
  | EvApplyFields _ _ => Some Rendered
  | EvExportAsMediaDirect _ _ _ => Some Exported
  | EvSuperPublish _ => Some Registered
  | EvCreate _ _ => Some Created
  | EvUpload _ _ _ _ => Some Uploaded
  | _ => None
  end.

(** The movie plugin's [publish] gets through the export with movie path
    [p]: the settings entry is there, the last [v<digits>] of the name has
    the digits [ds], the item carries the publish template [t] once the
    template name is resolved, the template renders [p], and the export
    command returns. *)
Definition exports_to (h : Host) (settings : gmap string Setting) (s : Setting)
    (it : Item) (ds : list ascii) (t : val) (p : string) : Prop :=
  settings !! "Publish Template" = Some s /\
  last (findall re_v_digits (chars (name it))) = Some ("v"%char :: ds) /\
  properties (populated h s it) !! "publish_template" = Some t /\
  apply_fields h t
    (template_fields h it t (before_first "." (name it)) (digits_value 0 ds)) = Some p /\
  exportAsMediaDirect h (VStr p) PremiereUploadVersionPlugin.preset 2 = Return tt.

(** The trace of such a run up to and including the export. *)
Definition export_events (h : Host) (s : Setting) (it : Item) (ds : list ascii)
    (t : val) (p : string) : list Event :=
  populate_events h s ++
  [EvApplyFields t
     (template_fields h it t (before_first "." (name it)) (digits_value 0 ds));
   EvExportAsMediaDirect (VStr p) PremiereUploadVersionPlugin.preset 2].

(** The run moreover finds the file name [code] of the path and a
    dictionary [d] under "sg_publish_data", so that the base class gets
    called. *)
Definition hands_to_base (h : Host) (settings : gmap string Setting) (s : Setting)
    (it : Item) (ds : list ascii) (t : val) (p : string) (code : val)
    (d : gmap string val) : Prop :=
  exports_to h settings s it ds t p /\
  subscript (get_file_path_components h p) "filename" = Return code /\
  properties it !! "sg_publish_data" = Some (VDict d).

(** The trace from line 289 to the call of the base class. *)
Definition staging_events (it : Item) (p : string) (d : gmap string val) : list Event :=
  [EvLog Info "Creating Version..." VNone;
   EvSetProperty "path" (VStr p);
   EvSetProperty "publish_type" (VStr "Rendered Image");
   EvSetProperty "sg_publish_data"
     (VDict (<["upstream_published_files" := version_entity (context it)]> d));
   EvSuperPublish (staged it p d)].

(** The order of the stages of a complete run. *)
Definition all_stages : list Stage := [Rendered; Exported; Registered; Created; Uploaded].

(** A host like [ex_host] whose base class refuses to publish, whose create
    call fails, and whose upload fails. *)
Definition ex_host_failing_base : Host :=
  {| project_path := project_path ex_host;
     engine_apps := engine_apps ex_host;
     get_template_by_name := get_template_by_name ex_host;
     ShotgunPath_normalize := ShotgunPath_normalize ex_host;
     os_path_basename := os_path_basename ex_host;
     template_validate := template_validate ex_host;
     as_template_fields := as_template_fields ex_host;
     apply_fields := apply_fields ex_host;
     exportAsMediaDirect := exportAsMediaDirect ex_host;
     exportAsFinalCutProXML := exportAsFinalCutProXML ex_host;
     get_file_path_components := get_file_path_components ex_host;
     pformat := pformat ex_host;
     base_validate := base_validate ex_host;
     base_publish := fun _ it => (Raise (HostError "publish failed"), it);
     shotgun_create := shotgun_create ex_host;
     shotgun_upload := shotgun_upload ex_host |}.

Definition ex_host_failing_create : Host :=
  {| project_path := project_path ex_host;
     engine_apps := engine_apps ex_host;
     get_template_by_name := get_template_by_name ex_host;
     ShotgunPath_normalize := ShotgunPath_normalize ex_host;
     os_path_basename := os_path_basename ex_host;
     template_validate := template_validate ex_host;
     as_template_fields := as_template_fields ex_host;
     apply_fields := apply_fields ex_host;
     exportAsMediaDirect := exportAsMediaDirect ex_host;
     exportAsFinalCutProXML := exportAsFinalCutProXML ex_host;
     get_file_path_components := get_file_path_components ex_host;
     pformat := pformat ex_host;
     base_validate := base_validate ex_host;
     base_publish := base_publish ex_host;
     shotgun_create := fun _ _ => Raise (HostError "create failed");
     shotgun_upload := shotgun_upload ex_host |}.

Definition ex_host_failing_upload : Host :=
  {| project_path := project_path ex_host;
     engine_apps := engine_apps ex_host;
     get_template_by_name := get_template_by_name ex_host;
     ShotgunPath_normalize := ShotgunPath_normalize ex_host;
     os_path_basename := os_path_basename ex_host;
     template_validate := template_validate ex_host;
     as_template_fields := as_template_fields ex_host;
     apply_fields := apply_fields ex_host;
     exportAsMediaDirect := exportAsMediaDirect ex_host;
     exportAsFinalCutProXML := exportAsFinalCutProXML ex_host;
     get_file_path_components := get_file_path_components ex_host;
     pformat := pformat ex_host;
     base_validate := base_validate ex_host;
     base_publish := base_publish ex_host;
     shotgun_create := shotgun_create ex_host;
     shotgun_upload := fun _ _ _ _ => Raise (HostError "upload failed") |}.

Definition ex_host_failing_export : Host :=
  {| project_path := project_path ex_host;
     engine_apps := engine_apps ex_host;
     get_template_by_name := get_template_by_name ex_host;
     ShotgunPath_normalize := ShotgunPath_normalize ex_host;
     os_path_basename := os_path_basename ex_host;
     template_validate := template_validate ex_host;
     as_template_fields := as_template_fields ex_host;
     apply_fields := apply_fields ex_host;
     exportAsMediaDirect := fun _ _ _ => Raise (HostError "export failed");
     exportAsFinalCutProXML := exportAsFinalCutProXML ex_host;
     get_file_path_components := get_file_path_components ex_host;
     pformat := pformat ex_host;
     base_validate := base_validate ex_host;
     base_publish := base_publish ex_host;
     shotgun_create := shotgun_create ex_host;
     shotgun_upload := shotgun_upload ex_host |}.

(** A host with the workfiles app and its save dialog. *)
Definition ex_host_workfiles : Host :=
  {| project_path := project_path ex_host;
     engine_apps := {[ "tk-multi-workfiles2" := {| app_attrs := ["show_file_open_dlg"; "show_file_save_dlg"] |} ]};
     get_template_by_name := get_template_by_name ex_host;
     ShotgunPath_normalize := ShotgunPath_normalize ex_host;
     os_path_basename := os_path_basename ex_host;
     template_validate := template_validate ex_host;
     as_template_fields := as_template_fields ex_host;
     apply_fields := apply_fields ex_host;
     exportAsMediaDirect := exportAsMediaDirect ex_host;
     exportAsFinalCutProXML := exportAsFinalCutProXML ex_host;
     get_file_path_components := get_file_path_components ex_host;
     pformat := pformat ex_host;
     base_validate := base_validate ex_host;
     base_publish := base_publish ex_host;
     shotgun_create := shotgun_create ex_host;
     shotgun_upload := shotgun_upload ex_host |}.

(** A host whose create call answers with a record that has no "id". *)
Definition ex_host_no_id : Host :=
  {| project_path := project_path ex_host;
     engine_apps := engine_apps ex_host;
     get_template_by_name := get_template_by_name ex_host;
     ShotgunPath_normalize := ShotgunPath_normalize ex_host;
     os_path_basename := os_path_basename ex_host;
     template_validate := template_validate ex_host;
     as_template_fields := as_template_fields ex_host;
     apply_fields := apply_fields ex_host;
     exportAsMediaDirect := exportAsMediaDirect ex_host;
     exportAsFinalCutProXML := exportAsFinalCutProXML ex_host;
     get_file_path_components := get_file_path_components ex_host;
     pformat := pformat ex_host;
     base_validate := base_validate ex_host;
     base_publish := base_publish ex_host;
     shotgun_create := fun _ d => Return (VDict d);
     shotgun_upload := shotgun_upload ex_host |}.

(** A host whose template names do not resolve. *)
Definition ex_host_no_template : Host :=
  {| project_path := project_path ex_host;
     engine_apps := engine_apps ex_host;
     get_template_by_name := fun _ => VNone;
     ShotgunPath_normalize := ShotgunPath_normalize ex_host;
     os_path_basename := os_path_basename ex_host;
     template_validate := template_validate ex_host;
     as_template_fields := as_template_fields ex_host;
     apply_fields := apply_fields ex_host;
     exportAsMediaDirect := exportAsMediaDirect ex_host;
     exportAsFinalCutProXML := exportAsFinalCutProXML ex_host;
     get_file_path_components := get_file_path_components ex_host;
     pformat := pformat ex_host;
     base_validate := base_validate ex_host;
     base_publish := base_publish ex_host;
     shotgun_create := shotgun_create ex_host;
     shotgun_upload := shotgun_upload ex_host |}.

(** An item whose "sg_publish_data" is not a dictionary, and one whose name
    has no version. *)
Definition ex_item_odd_publish_data : Item :=
  with_properties ex_item {[ "sg_publish_data" := VStr "published" ]}.

Definition ex_item_untagged : Item := with_name ex_item "shot010.prproj".

(** Settings as a base class could declare them. *)
Definition ex_base_settings : gmap string val :=
  {[ "File Types" := VDict {[ "type" := VStr "list"; "default" := VList [] ]};
     "Publish Template" := VDict {[ "type" := VStr "str"; "default" := VStr "old" ]} ]}.

(** * Properties *)

(** ** Strings *)

Example split_ex : split "." "shot010.010.prproj" = ["shot010"; "010"; "prproj"].
Proof. reflexivity. Qed.

Example int_ex : int (chars "010") = Return 10.
Proof. reflexivity. Qed.

Lemma split_head sep s : exists ps, split sep s = before_first sep s :: ps.
Proof.
  induction s as [|c s [ps IH]]; simpl.
  - now exists [].
  - destruct (Ascii.eqb c sep).
    + eauto.
    + rewrite IH. eauto.
Qed.

Lemma index_split_0 sep s : index (split sep s) 0 = Return (before_first sep s).
Proof. destruct (split_head sep s) as [ps ->]. reflexivity. Qed.

Lemma split_no_sep sep s : contains sep s = false -> split sep s = [s].
Proof.
  unfold contains, chars.
  induction s as [|c s IH]; simpl; [reflexivity|].
  destruct (Ascii.eqb c sep); simpl; [discriminate|].
  intros H. now rewrite (IH H).
Qed.

Lemma split_with_sep sep s :
  contains sep s = true -> exists p q ps, split sep s = p :: q :: ps.
Proof.
  unfold contains, chars.
  induction s as [|c s IH]; simpl; [discriminate|].
  destruct (Ascii.eqb c sep); simpl.
  - intros _. destruct (split_head sep s) as [ps ->]. eauto.
  - intros H. destruct (IH H) as (p & q & ps & ->). eauto.
Qed.

(** ** The regular-expression matcher *)

Example findall_v_digits_ex :
  map str (findall re_v_digits (chars "shot010_v003.prproj")) = ["v003"].
Proof. reflexivity. Qed.

Example findall_v_digits_many :
  map str (findall re_v_digits (chars "rev12_v3_v045x")) = ["v12"; "v3"; "v045"].
Proof. reflexivity. Qed.

Example findall_3digits_ex :
  map str (findall re_3digits (chars "shot1234567")) = ["123"; "456"].
Proof. reflexivity. Qed.

Lemma run_length_le_length k cap s : (run_length k cap s <= length s)%nat.
Proof.
  revert cap. induction s as [|c s IH]; intros cap; simpl; [lia|].
  destruct (in_class k c); [|lia].
  destruct cap as [[|n]|]; [lia | pose proof (IH (Some n)) | pose proof (IH None)]; lia.
Qed.

Lemma run_length_le_cap k n s : (run_length k (Some n) s <= n)%nat.
Proof.
  revert n. induction s as [|c s IH]; intros n; simpl; [lia|].
  destruct (in_class k c); [|lia].
  destruct n as [|n]; [lia | pose proof (IH n); lia].
Qed.

Lemma run_length_in_class k cap s n :
  (n <= run_length k cap s)%nat -> forallb (in_class k) (firstn n s) = true.
Proof.
  revert cap n. induction s as [|c s IH]; intros cap n; simpl.
  - intros Hn. now replace n with O by lia.
  - destruct n as [|n]; [reflexivity|].
    destruct (in_class k c) eqn:Hc; [|lia].
    destruct cap as [[|m]|]; [lia | |]; intros Hn; simpl; rewrite Hc; simpl;
      eapply IH with (cap := _); apply le_S_n, Hn.
Qed.

Lemma run_length_all k s :
  forallb (in_class k) s = true -> run_length k None s = length s.
Proof.
  induction s as [|c s IH]; simpl; [reflexivity|].
  destruct (in_class k c); simpl; [|discriminate].
  intros H. now rewrite (IH H).
Qed.

(** What a match of [a :: r] is made of: [k] characters of the class of [a],
    within the bounds of its repeat count, then a match of [r]. *)
Lemma match_here_cons a r s m rest :
  match_here (a :: r) s = Some (m, rest) ->
  exists k m',
    (rmin a <= k <= run_length (cls a) (rmax a) s)%nat /\
    match_here r (skipn k s) = Some (m', rest) /\
    m = (firstn k s ++ m')%list.
Proof.
  simpl. generalize (Nat.le_refl (run_length (cls a) (rmax a) s)).
  generalize (run_length (cls a) (rmax a) s) at 1 3 as n.
  induction n as [|n IH]; intros Hn.
  - destruct (rmin a <=? 0)%nat eqn:Hmin; [|discriminate].
    destruct (match_here r (skipn 0 s)) as [[m' rest']|] eqn:Hm; [|discriminate].
    intros [= <- <-]. exists O, m'. apply Nat.leb_le in Hmin. repeat split; auto; lia.
  - destruct (rmin a <=? S n)%nat eqn:Hmin.
    + destruct (match_here r (skipn (S n) s)) as [[m' rest']|] eqn:Hm.
      * intros [= <- <-]. exists (S n), m'. apply Nat.leb_le in Hmin. repeat split; auto; lia.
      * intros H. apply IH in H; [|lia]. exact H.
    + intros H. apply IH in H; [|lia]. exact H.
Qed.

(** Every element of [findall] is an anchored match at some position. *)
Lemma findall_from_match r s skip m :
  In m (findall_from r s skip) -> exists s' rest, match_here r s' = Some (m, rest).
Proof.
  revert skip. induction s as [|c s IH]; intros skip; simpl.
  - destruct skip; [|intros []].
    destruct (match_here r []) as [[m' rest]|] eqn:Hm; [|intros []].
    intros [<-|[]]. eauto.
  - destruct skip as [|k]; [|apply IH].
    destruct (match_here r (c :: s)) as [[m' rest]|] eqn:Hm; [|apply IH].
    intros [<-|H]; [eauto | eapply IH, H].
Qed.

(** A match of [v[0-9]+] is the letter [v] followed by a run of digits. *)
Lemma match_v_digits_shape s m rest :
  match_here re_v_digits s = Some (m, rest) ->
  exists ds, m = "v"%char :: ds /\ digit_run ds.
Proof.
  intros H. apply match_here_cons in H as (k1 & m1 & [Hlo1 Hhi1] & H & ->).
  apply match_here_cons in H as (k2 & m2 & [Hlo2 Hhi2] & H & ->).
  simpl in H. injection H as <- _. simpl in Hlo1, Hlo2, Hhi1, Hhi2.
  pose proof (run_length_le_cap (Lit "v") 1 s) as Hcap.
  assert (k1 = 1%nat) as -> by lia.
  pose proof (run_length_in_class _ _ _ _ Hhi1) as Hv.
  pose proof (run_length_in_class _ _ _ _ Hhi2) as Hd.
  pose proof (run_length_le_length digit None (skipn 1 s)) as Hlen.
  destruct s as [|c s]; [simpl in Hhi1; lia|].
  simpl in Hv. rewrite andb_true_r in Hv. apply Ascii.eqb_eq in Hv as ->.
  simpl in *. change (skipn 0 s) with s in *.
  exists (firstn k2 s). rewrite app_nil_r. split; [reflexivity|].
  split; [|exact Hd].
  destruct s; [simpl in Hhi2; lia|]. destruct k2; [lia|]. discriminate.
Qed.

Lemma findall_v_digits_shape s m :
  In m (findall re_v_digits s) -> exists ds, m = "v"%char :: ds /\ digit_run ds.
Proof.
  intros H. apply findall_from_match in H as (s' & rest & H).
  eapply match_v_digits_shape, H.
Qed.

Lemma match_digits_all ds :
  digit_run ds -> match_here re_digits ds = Some (ds, []).
Proof.
  intros [Hne Hd]. simpl. rewrite (run_length_all digit ds Hd).
  destruct ds as [|d ds]; [congruence|].
  cbn [length Nat.leb].
  change (S (length ds)) with (length (d :: ds)).
  now rewrite skipn_all, firstn_all, app_nil_r.
Qed.

Lemma findall_from_skip_all r s : match_here r [] = None -> findall_from r s (length s) = [].
Proof.
  intros Hr. induction s as [|c s IH]; simpl; [now rewrite Hr | exact IH].
Qed.

(** [re.findall(r'[0-9]+', m)] on a match [m] of [v[0-9]+] has one element,
    the digits of [m]. *)
Lemma findall_digits_of_v ds :
  digit_run ds -> findall re_digits ("v"%char :: ds) = [ds].
Proof.
  intros Hds. unfold findall. 
  change (findall_from re_digits ("v"%char :: ds) 0) with (findall_from re_digits ds 0).
  pose proof (match_digits_all ds Hds) as Hm.
  destruct ds as [|d ds]; [destruct Hds; congruence|].
  cbn [findall_from]. rewrite Hm. f_equal.
  cbn [length]. replace (S (length ds) - 1)%nat with (length ds) by lia.
  now apply findall_from_skip_all.
Qed.

Lemma int_digit_run ds : digit_run ds -> int ds = Return (digits_value 0 ds).
Proof.
  intros [Hne Hd]. unfold int. rewrite Hd. destruct ds; [congruence | reflexivity].
Qed.

(** ** Running method bodies *)

Ltac run_monad :=
  unfold run, result, events, final_item, set_property, property, property_get,
    log, global;
  unfold bind, ret, raise, lift, get_item, emit, put_item.

Lemma last_In {A} (l : list A) (x : A) : last l = Some x -> In x l.
Proof. intros H. apply list_elem_of_In. eapply last_Some_elem_of, H. Qed.

Lemma populate_publish_template_run h settings s it tr :
  settings !! "Publish Template" = Some s ->
  populate_publish_template h settings {| item := it; trace := tr |}
  = (Return tt, {| item := populated h s it; trace := tr ++ populate_events h s |}).
Proof.
  intros Hs. unfold populate_publish_template, publish_template_setting_value,
    populated, populate_events.
  run_monad. rewrite Hs.
  destruct (truthy (get_template_by_name h (value s))); cbn.
  - reflexivity.
  - now rewrite app_nil_r.
Qed.

Lemma populate_publish_template_missing h settings st :
  settings !! "Publish Template" = None ->
  populate_publish_template h settings st = (Raise (AttributeError "value"), st).
Proof.
  intros Hs. unfold populate_publish_template, publish_template_setting_value.
  run_monad. now rewrite Hs.
Qed.

Lemma populated_name h s it : name (populated h s it) = name it.
Proof. unfold populated. now destruct (truthy _). Qed.

Lemma populated_context h s it : context (populated h s it) = context it.
Proof. unfold populated. now destruct (truthy _). Qed.

Lemma populated_description h s it : description (populated h s it) = description it.
Proof. unfold populated. now destruct (truthy _). Qed.

Lemma populated_properties_ne h s it key :
  key <> "publish_template" -> properties (populated h s it) !! key = properties it !! key.
Proof.
  intros Hk. unfold populated. destruct (truthy _); [|reflexivity].
  cbn. now rewrite lookup_insert_ne.
Qed.

(** Lines 267-270 of publish_render.py on a name that has a [v<digits>]. *)
Lemma movie_derive_name_version item_name m st :
  last (findall re_v_digits (chars item_name)) = Some m ->
  exists ds,
    m = "v"%char :: ds /\ digit_run ds /\
    PremiereUploadVersionPlugin.derive_name_version
      PremiereUploadVersionPlugin.module_globals item_name st
    = (Return (before_first "." item_name, digits_value 0 ds), st).
Proof.
  intros Hlast.
  destruct (findall_v_digits_shape _ _ (last_In _ _ Hlast)) as (ds & -> & Hds).
  exists ds. split; [reflexivity|]. split; [exact Hds|].
  unfold PremiereUploadVersionPlugin.derive_name_version. run_monad.
  rewrite index_split_0. cbn [existsb PremiereUploadVersionPlugin.module_globals String.eqb].
  unfold index_last. rewrite Hlast, (findall_digits_of_v ds Hds).
  cbn [last]. now rewrite (int_digit_run ds Hds).
Qed.

Lemma movie_publish_run h settings s it ds :
  settings !! "Publish Template" = Some s ->
  last (findall re_v_digits (chars (name it))) = Some ("v"%char :: ds) ->
  run (PremiereUploadVersionPlugin.publish h settings) it
  = PremiereUploadVersionPlugin.export_and_publish
      PremiereUploadVersionPlugin.module_globals h settings
      (before_first "." (name it), digits_value 0 ds)
      {| item := populated h s it; trace := populate_events h s |}.
Proof.
  intros Hs Hlast.
  unfold PremiereUploadVersionPlugin.publish, PremiereUploadVersionPlugin.publish_in, run.
  unfold bind at 1. rewrite (populate_publish_template_run _ _ _ _ _ Hs).
  unfold bind at 1, get_item. cbn [item].
  unfold bind at 1. rewrite populated_name.
  destruct (movie_derive_name_version _ _
              {| item := populated h s it; trace := [] ++ populate_events h s |} Hlast)
    as (ds' & [= <-] & _ & ->).
  reflexivity.
Qed.

(** C3. In the movie plugin's [publish], when the item name has at least
    one match of [v[0-9]+] and [m] is the last one, [m] is the letter [v]
    followed by a run of digits [ds]; the derived version is the integer
    those digits denote and the derived name is the part of the item name
    before its first dot.  [publish] goes on with exactly that pair. *)
Theorem movie_publish_name_and_version
    (h : Host) (settings : gmap string Setting) (s : Setting) (it : Item) (m : list ascii) :
  settings !! "Publish Template" = Some s ->
  last (findall re_v_digits (chars (name it))) = Some m ->
  exists ds,
    m = "v"%char :: ds /\ digit_run ds /\
    (forall st,
        PremiereUploadVersionPlugin.derive_name_version
          PremiereUploadVersionPlugin.module_globals (name it) st
        = (Return (before_first "." (name it), digits_value 0 ds), st)) /\
    run (PremiereUploadVersionPlugin.publish h settings) it
    = PremiereUploadVersionPlugin.export_and_publish
        PremiereUploadVersionPlugin.module_globals h settings
        (before_first "." (name it), digits_value 0 ds)
        {| item := populated h s it; trace := populate_events h s |}.
Proof.
  intros Hs Hlast.
  destruct (findall_v_digits_shape _ _ (last_In _ _ Hlast)) as (ds & -> & Hds).
  exists ds. split; [reflexivity|]. split; [exact Hds|]. split.
  - intros st. destruct (movie_derive_name_version _ _ st Hlast) as (ds' & [= <-] & _ & H).
    exact H.
  - now apply movie_publish_run.
Qed.

(** ** publish_xml.py, lines 257-259 *)

Lemma edl_derive_no_dot globals item_name st :
  contains "." item_name = false ->
  PremiereUploadEDLPlugin.derive_name_version globals item_name st = (Raise IndexError, st).
Proof.
  intros H. unfold PremiereUploadEDLPlugin.derive_name_version. run_monad.
  now rewrite (split_no_sep _ _ H).
Qed.

Lemma edl_derive_dot item_name st :
  contains "." item_name = true ->
  PremiereUploadEDLPlugin.derive_name_version
    PremiereUploadEDLPlugin.module_globals item_name st
  = (Raise (NameError "re"), st).
Proof.
  intros H. unfold PremiereUploadEDLPlugin.derive_name_version. run_monad.
  destruct (split_with_sep _ _ H) as (p & q & ps & ->). reflexivity.
Qed.

Lemma edl_publish_run h settings s it :
  settings !! "Publish Template" = Some s ->
  run (PremiereUploadEDLPlugin.publish h settings) it
  = (nv <- PremiereUploadEDLPlugin.derive_name_version
             PremiereUploadEDLPlugin.module_globals (name it) ;;
     PremiereUploadEDLPlugin.export_and_publish
       PremiereUploadEDLPlugin.module_globals h settings nv)
      {| item := populated h s it; trace := populate_events h s |}.
Proof.
  intros Hs.
  unfold PremiereUploadEDLPlugin.publish, PremiereUploadEDLPlugin.publish_in, run.
  unfold bind at 1. rewrite (populate_publish_template_run _ _ _ _ _ Hs).
  unfold bind at 1, get_item. cbn [item]. now rewrite populated_name.
Qed.

Lemma edl_publish_missing_setting h settings it :
  settings !! "Publish Template" = None ->
  run (PremiereUploadEDLPlugin.publish h settings) it
  = (Raise (AttributeError "value"), {| item := it; trace := [] |}).
Proof.
  intros Hs.
  unfold PremiereUploadEDLPlugin.publish, PremiereUploadEDLPlugin.publish_in, run.
  unfold bind at 1. now rewrite (populate_publish_template_missing _ _ _ Hs).
Qed.

Lemma populate_events_quiet h s :
  Forall (fun ev => renders_or_exports ev = false /\ registers ev = false /\
                    ev <> EvLog Error "No render path found" VNone)
         (populate_events h s).
Proof.
  unfold populate_events. destruct (truthy _); repeat constructor; discriminate.
Qed.

(** C10. In the EDL plugin's [publish], an item name without a dot makes
    [item.name.split('.')[1]] raise [IndexError]; by then only the publish
    template may have been stored on the item: the template has not been
    rendered and no export command has been called. *)
Theorem edl_publish_no_dot_index_error
    (h : Host) (settings : gmap string Setting) (s : Setting) (it : Item) :
  settings !! "Publish Template" = Some s ->
  contains "." (name it) = false ->
  result (run (PremiereUploadEDLPlugin.publish h settings) it) = Raise IndexError /\
  events (run (PremiereUploadEDLPlugin.publish h settings) it) = populate_events h s /\
  Forall (fun ev => renders_or_exports ev = false)
         (events (run (PremiereUploadEDLPlugin.publish h settings) it)).
Proof.
  intros Hs Hdot. rewrite (edl_publish_run _ _ _ _ Hs).
  unfold bind. rewrite (edl_derive_no_dot _ _ _ Hdot).
  unfold result, events. cbn [fst snd trace].
  repeat split.
  eapply Forall_impl; [apply populate_events_quiet|]. now intros ev [H _].
Qed.

Lemma edl_publish_dot_run h settings s it :
  settings !! "Publish Template" = Some s ->
  contains "." (name it) = true ->
  run (PremiereUploadEDLPlugin.publish h settings) it
  = (Raise (NameError "re"), {| item := populated h s it; trace := populate_events h s |}).
Proof.
  intros Hs Hdot. rewrite (edl_publish_run _ _ _ _ Hs).
  unfold bind. now rewrite (edl_derive_dot _ _ Hdot).
Qed.

(** C2 (the code departs from it). In the EDL plugin's [publish], for an item
    name with a dot the version is never derived: line 259 reads the name
    [re], which publish_xml.py does not import, and [NameError] is raised
    before any pattern is matched; the item holds at most the publish
    template and nothing was rendered or exported. *)
Theorem edl_publish_version_unbound_re
    (h : Host) (settings : gmap string Setting) (s : Setting) (it : Item) :
  settings !! "Publish Template" = Some s ->
  contains "." (name it) = true ->
  (forall st,
      PremiereUploadEDLPlugin.derive_name_version
        PremiereUploadEDLPlugin.module_globals (name it) st
      = (Raise (NameError "re"), st)) /\
  run (PremiereUploadEDLPlugin.publish h settings) it
  = (Raise (NameError "re"), {| item := populated h s it; trace := populate_events h s |}).
Proof.
  intros Hs Hdot. split.
  - intros st. now apply edl_derive_dot.
  - now apply edl_publish_dot_run.
Qed.

(** C4 (the code departs from it for the EDL plugin). The EDL plugin's
    [publish] raises on every input, and never renders the template, calls
    the export or logs "No render path found": the check of the rendered
    path is out of reach behind the unbound name [re] of line 259. *)
Theorem edl_publish_never_reaches_path_check
    (h : Host) (settings : gmap string Setting) (it : Item) :
  (exists e, result (run (PremiereUploadEDLPlugin.publish h settings) it) = Raise e) /\
  Forall (fun ev => renders_or_exports ev = false /\
                    ev <> EvLog Error "No render path found" VNone)
         (events (run (PremiereUploadEDLPlugin.publish h settings) it)).
Proof.
  destruct (settings !! "Publish Template") as [s|] eqn:Hs.
  - assert (Hq : Forall (fun ev => renders_or_exports ev = false /\
                                   ev <> EvLog Error "No render path found" VNone)
                        (populate_events h s)).
    { eapply Forall_impl; [apply populate_events_quiet|]. now intros ev (? & _ & ?). }
    destruct (contains "." (name it)) eqn:Hdot.
    + rewrite (edl_publish_dot_run _ _ _ _ Hs Hdot). split; [eauto | exact Hq].
    + rewrite (edl_publish_run _ _ _ _ Hs).
      unfold bind. rewrite (edl_derive_no_dot _ _ _ Hdot). split; [eauto | exact Hq].
  - rewrite (edl_publish_missing_setting _ _ _ Hs). split; [eauto | constructor].
Qed.

Lemma accept_run self_name h settings s it :
  settings !! "Publish Template" = Some s ->
  run (accept self_name h settings) it
  = (Return accepted,
     {| item := if truthy (value s) then with_context_change_allowed it false else it;
        trace := (if truthy (value s)
                  then [EvSetAttr "context_change_allowed" (VBool false)] else [])
                 ++ (if truthy_path (project_path h) then [] else [unsaved_warning h])
                 ++ [EvLog Info ("Premiere '" +:+ self_name +:+ "' plugin accepted.") VNone] |}).
Proof.
  intros Hs. unfold accept, publish_template_setting_value. run_monad. rewrite Hs.
  destruct (truthy (value s)), (truthy_path (project_path h)); reflexivity.
Qed.

Lemma validate_unsaved class_name globals h settings it :
  truthy_path (project_path h) = false ->
  run (validate class_name globals h settings) it
  = (if existsb (String.eqb "ProjectUnsavedError") globals
     then Raise (UserException "ProjectUnsavedError" (unsaved_message it))
     else Raise (NameError "ProjectUnsavedError"),
     {| item := it;
        trace := [EvLog Error (unsaved_message it) (__get_save_as_action h)] |}).
Proof.
  intros Hp. unfold validate. rewrite Hp. run_monad. cbn.
  now destruct (existsb _ globals).
Qed.

Lemma validate_mismatch class_name globals h settings s it p wt :
  existsb (String.eqb "sgtk") globals = true ->
  existsb (String.eqb "os") globals = true ->
  existsb (String.eqb class_name) globals = true ->
  settings !! "Publish Template" = Some s ->
  project_path h = Some p ->
  p <> "" ->
  properties it !! "work_template" = Some wt ->
  truthy wt = true ->
  template_validate h wt (ShotgunPath_normalize h p) = false ->
  run (validate class_name globals h settings) it
  = (fst (base_validate h settings (validated h s p it)),
     {| item := snd (base_validate h settings (validated h s p it));
        trace := [mismatch_warning h] ++ populate_events h s
                 ++ [EvSetAttr "name" (VStr (os_path_basename h (ShotgunPath_normalize h p)));
                     EvSetProperty "path" (VStr (ShotgunPath_normalize h p));
                     EvSuperValidate (validated h s p it)] |}).
Proof.
  intros Hsgtk Hos Hcls Hs Hp Hne Hwt Htruthy Hmis.
  unfold validate, run. rewrite Hp. cbn [truthy_path path_text default from_option id].
  apply String.eqb_neq in Hne. rewrite Hne. cbn [negb].
  unfold global at 1. rewrite Hsgtk.
  unfold bind at 1, ret at 1.
  unfold bind at 1, property_get, bind at 1, get_item, ret. cbn [item].
  rewrite Hwt. cbn [default from_option id]. rewrite Htruthy, Hmis. cbn [negb].
  unfold bind at 1, log, emit. cbn [item trace app].
  unfold bind at 1. rewrite (populate_publish_template_run _ _ _ _ _ Hs).
  unfold global at 1. rewrite Hos.
  unfold super_validate, global. rewrite Hcls.
  unfold set_property. run_monad. cbn [item trace].
  unfold validated.
  destruct (base_validate h settings _) as [r it'] eqn:Hb. cbn [fst snd].
  rewrite <- !app_assoc. reflexivity.
Qed.

(** C1 (the code departs from it). For a project without a path, [validate]
    of either plugin logs the error with the save-as action, leaves the item
    as it was, and raises; what is raised is [NameError] for the name
    [ProjectUnsavedError], which neither file defines or imports, and not an
    exception of that class. *)
Theorem validate_unsaved_raises_name_error
    (h : Host) (settings : gmap string Setting) (it : Item) :
  truthy_path (project_path h) = false ->
  run (PremiereUploadVersionPlugin.validate h settings) it
  = (Raise (NameError "ProjectUnsavedError"),
     {| item := it;
        trace := [EvLog Error (unsaved_message it) (__get_save_as_action h)] |}) /\
  run (PremiereUploadEDLPlugin.validate h settings) it
  = (Raise (NameError "ProjectUnsavedError"),
     {| item := it;
        trace := [EvLog Error (unsaved_message it) (__get_save_as_action h)] |}).
Proof.
  intros Hp. split.
  - unfold PremiereUploadVersionPlugin.validate. now rewrite (validate_unsaved _ _ _ _ _ Hp).
  - unfold PremiereUploadEDLPlugin.validate. now rewrite (validate_unsaved _ _ _ _ _ Hp).
Qed.

(** With [ProjectUnsavedError] bound at module level, the same body raises
    that exception. *)
Lemma validate_unsaved_with_exception_class
    (class_name : string) (globals : list string)
    (h : Host) (settings : gmap string Setting) (it : Item) :
  truthy_path (project_path h) = false ->
  run (validate class_name ("ProjectUnsavedError" :: globals) h settings) it
  = (Raise (UserException "ProjectUnsavedError" (unsaved_message it)),
     {| item := it;
        trace := [EvLog Error (unsaved_message it) (__get_save_as_action h)] |}).
Proof. intros Hp. now rewrite (validate_unsaved _ _ _ _ _ Hp). Qed.

Lemma callback_of_save_as_action c :
  callback_of (save_as_action_with c) = Return (VCallable c).
Proof. reflexivity. Qed.

Lemma save_as_action_with_inj c c' :
  save_as_action_with c = save_as_action_with c' -> c = c'.
Proof.
  intros H. pose proof (callback_of_save_as_action c) as Hc.
  rewrite H, callback_of_save_as_action in Hc. now injection Hc.
Qed.

(** The action [__get_save_as_action] builds: the "Save As..." button around
    one of the two callbacks. *)
Lemma save_as_action_shape h :
  exists c,
    (c = BoundMethod "tk-multi-workfiles2" "show_file_save_dlg" \/ c = LambdaEngineSaveAs) /\
    __get_save_as_action h = save_as_action_with c.
Proof.
  unfold __get_save_as_action, save_as_action_with.
  destruct (engine_apps h !! "tk-multi-workfiles2") as [app|];
    [destruct (hasattr app "show_file_save_dlg")|]; eauto.
Qed.

(** C5. For settings that carry the declared "Publish Template" entry and
    any item, [accept] of either plugin returns
    [{"accepted": True, "checked": True}], whatever the project path.  When
    the project has no path it logs the warning "The Premiere project has
    not been saved." whose [extra] is the save-as action: an action button
    labelled "Save As..." with a callable callback, the save dialog of the
    workfiles app or [engine.save_as]; when the project has a path it logs
    no warning at all. *)
Theorem accept_is_unconditional
    (h : Host) (settings : gmap string Setting) (s : Setting) (it : Item) :
  settings !! "Publish Template" = Some s ->
  let movie := run (PremiereUploadVersionPlugin.accept h settings) it in
  let edl := run (PremiereUploadEDLPlugin.accept h settings) it in
  result movie = Return (VDict {[ "accepted" := VBool true; "checked" := VBool true ]}) /\
  result edl = Return (VDict {[ "accepted" := VBool true; "checked" := VBool true ]}) /\
  exists c,
    (c = BoundMethod "tk-multi-workfiles2" "show_file_save_dlg" \/ c = LambdaEngineSaveAs) /\
    __get_save_as_action h = save_as_action_with c /\
    callback_of (save_as_action_with c) = Return (VCallable c) /\
    (truthy_path (project_path h) = false ->
     In (EvLog Warning "The Premiere project has not been saved." (save_as_action_with c))
        (events movie) /\
     In (EvLog Warning "The Premiere project has not been saved." (save_as_action_with c))
        (events edl)) /\
    (truthy_path (project_path h) = true ->
     forall msg extra,
       ~ In (EvLog Warning msg extra) (events movie) /\
       ~ In (EvLog Warning msg extra) (events edl)).
Proof.
  intros Hs movie edl. subst movie edl.
  unfold PremiereUploadVersionPlugin.accept, PremiereUploadEDLPlugin.accept.
  rewrite !(accept_run _ _ _ _ _ Hs). unfold result, events. cbn [fst snd trace].
  split; [reflexivity|]. split; [reflexivity|].
  destruct (save_as_action_shape h) as (c & Hc & Heq).
  exists c. split; [exact Hc|]. split; [exact Heq|]. split; [reflexivity|].
  unfold unsaved_warning. rewrite Heq.
  split; intros ->.
  - split; apply in_or_app; right; now left.
  - intros msg extra.
    split; intros Hin; apply in_app_or in Hin as [Hin|Hin];
      destruct (truthy (value s)); cbn in Hin; intuition discriminate.
Qed.

(** C7 (the code departs from it in the action). For a saved project whose
    normalized path does not match the work template found in the item
    properties, [validate] of either plugin logs a warning, then resolves
    the publish template, sets the item name and path, calls the base class
    validation and returns what that call returns: the mismatch is not
    fatal.  The warning's [extra] is a button labelled "Save File" whose
    "callback" is the whole save-as action dictionary ("Save As..." button
    and its callable), not a callable: lines 215-223 put the result of
    [__get_save_as_action] under "callback" where the other log calls pass
    it as [extra]. *)
Theorem validate_template_mismatch_is_not_fatal
    (h : Host) (settings : gmap string Setting) (s : Setting) (it : Item)
    (p : string) (wt : val) :
  settings !! "Publish Template" = Some s ->
  project_path h = Some p ->
  p <> "" ->
  properties it !! "work_template" = Some wt ->
  truthy wt = true ->
  template_validate h wt (ShotgunPath_normalize h p) = false ->
  exists c,
    (c = BoundMethod "tk-multi-workfiles2" "show_file_save_dlg" \/ c = LambdaEngineSaveAs) /\
    __get_save_as_action h = save_as_action_with c /\
    let handed := validated h s p it in
    let warning :=
      EvLog Warning "The current project does not match the configured work template."
        (save_file_action_with (save_as_action_with c)) in
    let expected :=
      (fst (base_validate h settings handed),
       {| item := snd (base_validate h settings handed);
          trace := [warning] ++ populate_events h s
                   ++ [EvSetAttr "name" (VStr (os_path_basename h (ShotgunPath_normalize h p)));
                       EvSetProperty "path" (VStr (ShotgunPath_normalize h p));
                       EvSuperValidate handed] |}) in
    run (PremiereUploadVersionPlugin.validate h settings) it = expected /\
    run (PremiereUploadEDLPlugin.validate h settings) it = expected /\
    callback_of (save_file_action_with (save_as_action_with c))
    = Return (save_as_action_with c) /\
    (forall f, save_as_action_with c <> VCallable f) /\
    callback_of (save_as_action_with c) = Return (VCallable c).
Proof.
  intros Hs Hp Hne Hwt Htruthy Hmis.
  destruct (save_as_action_shape h) as (c & Hc & Heq).
  exists c. split; [exact Hc|]. split; [exact Heq|].
  intros handed warning expected. subst handed warning expected.
  assert (Hwarn : mismatch_warning h
                  = EvLog Warning
                      "The current project does not match the configured work template."
                      (save_file_action_with (save_as_action_with c))).
  { unfold mismatch_warning, save_file_action, save_file_action_with. now rewrite Heq. }
  rewrite <- Hwarn.
  split; [|split; [|split; [|split]]].
  - now apply validate_mismatch with (wt := wt).
  - now apply validate_mismatch with (wt := wt).
  - reflexivity.
  - discriminate.
  - reflexivity.
Qed.

(** C8. [_get_version_entity] of either plugin returns [context.entity] when
    that is truthy, else [context.project] when that is truthy, else [None];
    the item and the trace are left as they were. *)
Theorem get_version_entity_choice (st : State) :
  let c := context (item st) in
  (truthy (entity c) = true ->
   PremiereUploadVersionPlugin._get_version_entity st = (Return (entity c), st) /\
   PremiereUploadEDLPlugin._get_version_entity st = (Return (entity c), st)) /\
  (truthy (entity c) = false -> truthy (project c) = true ->
   PremiereUploadVersionPlugin._get_version_entity st = (Return (project c), st) /\
   PremiereUploadEDLPlugin._get_version_entity st = (Return (project c), st)) /\
  (truthy (entity c) = false -> truthy (project c) = false ->
   PremiereUploadVersionPlugin._get_version_entity st = (Return VNone, st) /\
   PremiereUploadEDLPlugin._get_version_entity st = (Return VNone, st)).
Proof.
  intros c. subst c.
  unfold PremiereUploadVersionPlugin._get_version_entity,
    PremiereUploadEDLPlugin._get_version_entity, _get_version_entity.
  run_monad.
  repeat split; intros; repeat match goal with H : truthy _ = _ |- _ => rewrite H; clear H end;
    reflexivity.
Qed.

Lemma get_version_entity_run st :
  _get_version_entity st = (Return (version_entity (context (item st))), st).
Proof.
  unfold _get_version_entity, version_entity. run_monad.
  destruct (truthy (entity _)); [reflexivity|]. now destruct (truthy (project _)).
Qed.

Lemma movie_export_no_render globals h settings nm ver st t :
  properties (item st) !! "publish_template" = Some t ->
  apply_fields h t (template_fields h (item st) t nm ver) = None ->
  exportAsMediaDirect h VNone PremiereUploadVersionPlugin.preset 2 = Return tt ->
  PremiereUploadVersionPlugin.export_and_publish globals h settings (nm, ver) st
  = (Return VNone,
     {| item := item st;
        trace := trace st ++
                 [EvApplyFields t (template_fields h (item st) t nm ver);
                  EvExportAsMediaDirect VNone PremiereUploadVersionPlugin.preset 2;
                  EvLog Error "No render path found" VNone] |}).
Proof.
  intros Ht Hr He. unfold PremiereUploadVersionPlugin.export_and_publish. run_monad.
  rewrite Ht. cbn [item trace fst snd]. unfold template_fields in Hr. rewrite Hr.
  cbn [of_path]. rewrite He. cbn [item trace]. now rewrite <- !app_assoc.
Qed.

Lemma movie_export_render globals h settings nm ver st t p :
  properties (item st) !! "publish_template" = Some t ->
  apply_fields h t (template_fields h (item st) t nm ver) = Some p ->
  exportAsMediaDirect h (VStr p) PremiereUploadVersionPlugin.preset 2 = Return tt ->
  PremiereUploadVersionPlugin.export_and_publish globals h settings (nm, ver) st
  = PremiereUploadVersionPlugin.register_and_upload globals h settings p
      {| item := item st;
         trace := trace st ++
                  [EvApplyFields t (template_fields h (item st) t nm ver);
                   EvExportAsMediaDirect (VStr p) PremiereUploadVersionPlugin.preset 2] |}.
Proof.
  intros Ht Hr He. unfold PremiereUploadVersionPlugin.export_and_publish.
  unfold bind at 1, property. run_monad.
  rewrite Ht. cbn [item trace fst snd]. unfold template_fields in Hr. rewrite Hr.
  cbn [of_path]. rewrite He. cbn [item trace]. now rewrite <- !app_assoc.
Qed.

Lemma register_and_upload_run h settings p st d code it' renderings version id :
  subscript (get_file_path_components h p) "filename" = Return code ->
  properties (item st) !! "sg_publish_data" = Some (VDict d) ->
  base_publish h settings (staged (item st) p d) = (Return tt, it') ->
  default (VList []) (properties it' !! "published_renderings") = VList renderings ->
  shotgun_create h "Version"
    (version_payload (item st) code p (published_files it' renderings)) = Return version ->
  subscript version "id" = Return id ->
  shotgun_upload h "Version" id p "sg_uploaded_movie" = Return tt ->
  PremiereUploadVersionPlugin.register_and_upload
    PremiereUploadVersionPlugin.module_globals h settings p st
  = (Return VNone,
     {| item := with_properties it'
                  (<["upload_path" := VStr p]>
                     (<["sg_version_data" := version]> (properties it')));
        trace := trace st ++
                 register_and_upload_events h (item st) it' p d code renderings version id |}).
Proof.
  intros Hcode Hd Hbase Hrs Hcreate Hid Hupload.
  unfold PremiereUploadVersionPlugin.register_and_upload, super_publish.
  rewrite Hcode. run_monad.
  rewrite get_version_entity_run. cbn [item trace with_properties properties context].
  rewrite get_version_entity_run. cbn [item trace with_properties properties context].
  rewrite !lookup_insert_ne by done. rewrite Hd. cbn [store_subscript].
  cbn [existsb PremiereUploadVersionPlugin.module_globals String.eqb Ascii.eqb Bool.eqb orb].
  cbn [item trace]. unfold staged in Hbase. unfold with_properties in Hbase |- *.
  cbn [properties name description context context_change_allowed] in Hbase |- *. rewrite Hbase. cbn [item trace with_properties properties].
  rewrite Hrs. cbn [iterate].
  unfold version_payload, published_files in Hcreate.
  rewrite Hcreate. cbn [item trace]. rewrite Hid, Hupload. cbn [item trace].
  unfold register_and_upload_events, version_payload, published_files, show_more_info, staged,
    with_properties.
  cbn [properties name description context context_change_allowed].
  rewrite <- !app_assoc. reflexivity.
Qed.

Lemma register_and_upload_no_publish_data globals h settings p st :
  properties (item st) !! "sg_publish_data" = None ->
  PremiereUploadVersionPlugin.register_and_upload globals h settings p st
  = match subscript (get_file_path_components h p) "filename" with
    | Return _ =>
        (Raise (KeyError "sg_publish_data"),
         {| item := with_properties (item st)
                      (<["publish_type" := VStr "Rendered Image"]>
                         (<["path" := VStr p]> (properties (item st))));
            trace := trace st ++
                     [EvLog Info "Creating Version..." VNone;
                      EvSetProperty "path" (VStr p);
                      EvSetProperty "publish_type" (VStr "Rendered Image")] |})
    | Raise e => (Raise e, st)
    end.
Proof.
  intros Hd. unfold PremiereUploadVersionPlugin.register_and_upload.
  destruct (subscript _ "filename") as [code|e]; [|reflexivity].
  run_monad.
  rewrite get_version_entity_run. cbn [item trace with_properties properties context].
  rewrite get_version_entity_run. cbn [item trace with_properties properties context].
  rewrite !lookup_insert_ne by done. rewrite Hd.
  rewrite <- !app_assoc. reflexivity.
Qed.

Lemma movie_derive_state globals item_name st :
  snd (PremiereUploadVersionPlugin.derive_name_version globals item_name st) = st.
Proof.
  unfold PremiereUploadVersionPlugin.derive_name_version. run_monad.
  destruct (index _ 0); [|reflexivity].
  destruct (existsb _ globals); [|reflexivity].
  destruct (index_last _) as [m|]; [|reflexivity].
  destruct (index_last _) as [ds|]; [|reflexivity].
  now destruct (int ds).
Qed.

Lemma movie_export_and_publish_quiet globals h settings nv st :
  properties (item st) !! "sg_publish_data" = None ->
  Forall (fun ev => registers ev = false) (trace st) ->
  Forall (fun ev => registers ev = false)
    (trace (snd (PremiereUploadVersionPlugin.export_and_publish globals h settings nv st))).
Proof.
  intros Hd Hst. unfold PremiereUploadVersionPlugin.export_and_publish.
  unfold bind at 1, property. run_monad.
  destruct (properties (item st) !! "publish_template") as [t|]; [|exact Hst].
  cbn [item trace].
  destruct (exportAsMediaDirect h _ _ _) as [[]|e]; cbn [snd trace].
  - destruct (apply_fields h t _) as [p|]; cbn [snd trace item].
    + rewrite register_and_upload_no_publish_data by exact Hd.
      destruct (subscript _ "filename"); cbn [snd trace item];
        rewrite ?Forall_app; repeat split; try exact Hst; repeat constructor.
    + rewrite ?Forall_app; repeat split; try exact Hst; repeat constructor.
  - rewrite ?Forall_app; repeat split; try exact Hst; repeat constructor.
Qed.

Lemma movie_publish_quiet h settings it :
  properties it !! "sg_publish_data" = None ->
  Forall (fun ev => registers ev = false)
    (events (run (PremiereUploadVersionPlugin.publish h settings) it)).
Proof.
  intros Hd.
  unfold PremiereUploadVersionPlugin.publish, PremiereUploadVersionPlugin.publish_in,
    run, events.
  unfold bind at 1.
  destruct (settings !! "Publish Template") as [s|] eqn:Hs.
  - rewrite (populate_publish_template_run _ _ _ _ _ Hs).
    unfold bind at 1, get_item. cbn [item]. unfold bind at 1.
    pose proof (movie_derive_state PremiereUploadVersionPlugin.module_globals
                  (name (populated h s it))
                  {| item := populated h s it; trace := [] ++ populate_events h s |}) as Hst.
    destruct (PremiereUploadVersionPlugin.derive_name_version _ _ _) as [[nv|e] st'].
    + cbn [snd] in Hst. subst st'. apply movie_export_and_publish_quiet.
      * cbn [item]. now rewrite populated_properties_ne.
      * cbn [trace app]. eapply Forall_impl; [apply populate_events_quiet|].
        now intros ev (_ & ? & _).
    + cbn [snd] in Hst. subst st'. cbn [snd trace app].
      eapply Forall_impl; [apply populate_events_quiet|]. now intros ev (_ & ? & _).
  - rewrite (populate_publish_template_missing _ _ _ Hs). constructor.
Qed.

Lemma template_fields_populated h s it t nm ver :
  template_fields h (populated h s it) t nm ver = template_fields h it t nm ver.
Proof. unfold template_fields. now rewrite populated_context. Qed.

Lemma version_payload_populated h s it code p files :
  version_payload (populated h s it) code p files = version_payload it code p files.
Proof. unfold version_payload. now rewrite populated_context, populated_description. Qed.

(** The movie plugin when the template renders no path. *)
Lemma movie_publish_no_render_path h settings s it ds t :
  settings !! "Publish Template" = Some s ->
  last (findall re_v_digits (chars (name it))) = Some ("v"%char :: ds) ->
  properties (populated h s it) !! "publish_template" = Some t ->
  apply_fields h t
    (template_fields h it t (before_first "." (name it)) (digits_value 0 ds)) = None ->
  exportAsMediaDirect h VNone PremiereUploadVersionPlugin.preset 2 = Return tt ->
  run (PremiereUploadVersionPlugin.publish h settings) it
  = (Return VNone,
     {| item := populated h s it;
        trace := populate_events h s ++
                 [EvApplyFields t
                    (template_fields h it t (before_first "." (name it)) (digits_value 0 ds));
                  EvExportAsMediaDirect VNone PremiereUploadVersionPlugin.preset 2;
                  EvLog Error "No render path found" VNone] |}).
Proof.
  intros Hs Hlast Ht Hr He. rewrite (movie_publish_run _ _ _ _ _ Hs Hlast).
  rewrite (movie_export_no_render _ _ _ _ _ _ t); cbn [item trace];
    rewrite ?template_fields_populated; auto.
Qed.

(** C9, amended. For an item without [sg_publish_data] in its properties,
    the movie plugin's [publish] never calls the base class [publish], the
    Version creation or the upload; and when the steps before line 309 go
    through (settings entry, a [v<digits>] in the name, a publish template,
    a rendered path, the export, a file name), the call raises
    [KeyError('sg_publish_data')]. *)
Theorem movie_publish_without_publish_data
    (h : Host) (settings : gmap string Setting) (it : Item) :
  properties it !! "sg_publish_data" = None ->
  Forall (fun ev => registers ev = false)
    (events (run (PremiereUploadVersionPlugin.publish h settings) it)) /\
  (forall s ds t p code,
      settings !! "Publish Template" = Some s ->
      last (findall re_v_digits (chars (name it))) = Some ("v"%char :: ds) ->
      properties (populated h s it) !! "publish_template" = Some t ->
      apply_fields h t
        (template_fields h it t (before_first "." (name it)) (digits_value 0 ds)) = Some p ->
      exportAsMediaDirect h (VStr p) PremiereUploadVersionPlugin.preset 2 = Return tt ->
      subscript (get_file_path_components h p) "filename" = Return code ->
      result (run (PremiereUploadVersionPlugin.publish h settings) it)
      = Raise (KeyError "sg_publish_data")).
Proof.
  intros Hd. split; [now apply movie_publish_quiet|].
  intros s ds t p code Hs Hlast Ht Hr He Hcode.
  rewrite (movie_publish_run _ _ _ _ _ Hs Hlast).
  rewrite (movie_export_render _ _ _ _ _ _ t p); cbn [item trace];
    rewrite ?template_fields_populated; auto.
  rewrite register_and_upload_no_publish_data.
  - now rewrite Hcode.
  - cbn [item]. now rewrite populated_properties_ne.
Qed.

(** C6, amended. When every step of the movie plugin's [publish] goes
    through, the calls and annotations come in this order: ... base class
    [publish]; the Version payload logged; [create("Version", payload)];
    the returned record stored as [sg_version_data]; the upload of the movie
    to the field [sg_uploaded_movie] of the record with the returned id; the
    path stored as [upload_path].  The payload holds project, code,
    description, entity, task and movie path as read from the item before
    the base class ran, and the published files read after it. *)
Theorem movie_publish_creates_then_uploads
    (h : Host) (settings : gmap string Setting) (s : Setting) (it it' : Item)
    (ds : list ascii) (t : val) (p : string) (code : val) (d : gmap string val)
    (renderings : list val) (version id : val) :
  settings !! "Publish Template" = Some s ->
  last (findall re_v_digits (chars (name it))) = Some ("v"%char :: ds) ->
  properties (populated h s it) !! "publish_template" = Some t ->
  apply_fields h t
    (template_fields h it t (before_first "." (name it)) (digits_value 0 ds)) = Some p ->
  exportAsMediaDirect h (VStr p) PremiereUploadVersionPlugin.preset 2 = Return tt ->
  subscript (get_file_path_components h p) "filename" = Return code ->
  properties it !! "sg_publish_data" = Some (VDict d) ->
  base_publish h settings (staged (populated h s it) p d) = (Return tt, it') ->
  default (VList []) (properties it' !! "published_renderings") = VList renderings ->
  shotgun_create h "Version" (version_payload it code p (published_files it' renderings))
  = Return version ->
  subscript version "id" = Return id ->
  shotgun_upload h "Version" id p "sg_uploaded_movie" = Return tt ->
  let payload := version_payload it code p (published_files it' renderings) in
  run (PremiereUploadVersionPlugin.publish h settings) it
  = (Return VNone,
     {| item := with_properties it'
                  (<["upload_path" := VStr p]>
                     (<["sg_version_data" := version]> (properties it')));
        trace := populate_events h s ++
                 [EvApplyFields t
                    (template_fields h it t (before_first "." (name it)) (digits_value 0 ds));
                  EvExportAsMediaDirect (VStr p) PremiereUploadVersionPlugin.preset 2;
                  EvLog Info "Creating Version..." VNone;
                  EvSetProperty "path" (VStr p);
                  EvSetProperty "publish_type" (VStr "Rendered Image");
                  EvSetProperty "sg_publish_data"
                    (VDict (<["upstream_published_files" := version_entity (context it)]> d));
                  EvSuperPublish (staged (populated h s it) p d);
                  EvLog Debug "Populated Version data..." (show_more_info h payload);
                  EvLog Info "Creating version for review..." VNone;
                  EvCreate "Version" payload;
                  EvSetProperty "sg_version_data" version;
                  EvLog Info "Uploading content..." VNone;
                  EvUpload "Version" id p "sg_uploaded_movie";
                  EvLog Info "Upload complete!" VNone;
                  EvSetProperty "upload_path" (VStr p)] |}) /\
  payload !! "project" = Some (project (context it)) /\
  payload !! "code" = Some code /\
  payload !! "description" = Some (description it) /\
  payload !! "entity" = Some (version_entity (context it)) /\
  payload !! "sg_task" = Some (task (context it)) /\
  payload !! "sg_path_to_movie" = Some (VStr p) /\
  payload !! "published_files" = Some (VList (published_files it' renderings)).
Proof.
  intros Hs Hlast Ht Hr He Hcode Hd Hbase Hrs Hcreate Hid Hupload payload.
  split; [|subst payload; unfold version_payload; repeat split; reflexivity].
  rewrite (movie_publish_run _ _ _ _ _ Hs Hlast).
  rewrite (movie_export_render _ _ _ _ _ _ t p); cbn [item trace];
    rewrite ?template_fields_populated; auto.
  rewrite (register_and_upload_run _ _ _ _ d code it' renderings version id);
    cbn [item trace]; rewrite ?version_payload_populated; auto.
  - unfold register_and_upload_events. rewrite version_payload_populated, populated_context.
    subst payload. rewrite <- !app_assoc. reflexivity.
  - now rewrite populated_properties_ne.
Qed.

(** A match of [[0-9]{3}] is three digits. *)
Lemma match_3digits_shape s m rest :
  match_here re_3digits s = Some (m, rest) -> digit_run m /\ length m = 3%nat.
Proof.
  intros H. apply match_here_cons in H as (k & m' & [Hlo Hhi] & H & ->).
  simpl in H. injection H as <- _. simpl in Hlo, Hhi.
  pose proof (run_length_le_cap digit 3 s) as Hcap.
  pose proof (run_length_le_length digit (Some 3%nat) s) as Hlen.
  assert (k = 3%nat) as -> by lia.
  pose proof (run_length_in_class _ _ _ _ Hhi) as Hd.
  rewrite app_nil_r.
  assert (Hl : length (firstn 3 s) = 3%nat) by (rewrite length_take; lia).
  repeat split; auto.
  intros Hnil. rewrite Hnil in Hl. discriminate.
Qed.

Lemma edl_derive_with_re item_name st :
  contains "." item_name = true ->
  PremiereUploadEDLPlugin.derive_name_version module_globals_with_re item_name st
  = match last (findall re_3digits (chars (before_first "." item_name))) with
    | Some m => (Return (before_first "." item_name, digits_value 0 m), st)
    | None => (Raise IndexError, st)
    end.
Proof.
  intros Hdot. unfold PremiereUploadEDLPlugin.derive_name_version. run_monad.
  rewrite index_split_0.
  destruct (split_with_sep _ _ Hdot) as (p & q & ps & ->).
  cbn [index lookup list_lookup]. cbn [existsb module_globals_with_re String.eqb].
  unfold index_last.
  destruct (last _) as [m|] eqn:Hlast; [|reflexivity].
  destruct (findall_from_match _ _ _ _ (last_In _ _ Hlast)) as (s' & rest & Hm).
  apply match_3digits_shape in Hm as [Hm _]. now rewrite (int_digit_run m Hm).
Qed.

Lemma edl_export_no_render globals h settings nm ver st t :
  properties (item st) !! "publish_template" = Some t ->
  apply_fields h t (template_fields h (item st) t nm ver) = None ->
  exportAsFinalCutProXML h VNone 1 = Return tt ->
  PremiereUploadEDLPlugin.export_and_publish globals h settings (nm, ver) st
  = (Return VNone,
     {| item := item st;
        trace := trace st ++
                 [EvApplyFields t (template_fields h (item st) t nm ver);
                  EvExportAsFinalCutProXML VNone 1;
                  EvLog Error "No render path found" VNone] |}).
Proof.
  intros Ht Hr He. unfold PremiereUploadEDLPlugin.export_and_publish. run_monad.
  rewrite Ht. cbn [item trace fst snd]. unfold template_fields in Hr. rewrite Hr.
  cbn [of_path]. rewrite He. cbn [item trace]. now rewrite <- !app_assoc.
Qed.

Lemma edl_publish_no_render_path_with_re h settings s it m t :
  settings !! "Publish Template" = Some s ->
  contains "." (name it) = true ->
  last (findall re_3digits (chars (before_first "." (name it)))) = Some m ->
  properties (populated h s it) !! "publish_template" = Some t ->
  apply_fields h t
    (template_fields h it t (before_first "." (name it)) (digits_value 0 m)) = None ->
  exportAsFinalCutProXML h VNone 1 = Return tt ->
  run (PremiereUploadEDLPlugin.publish_in module_globals_with_re h settings) it
  = (Return VNone,
     {| item := populated h s it;
        trace := populate_events h s ++
                 [EvApplyFields t
                    (template_fields h it t (before_first "." (name it)) (digits_value 0 m));
                  EvExportAsFinalCutProXML VNone 1;
                  EvLog Error "No render path found" VNone] |}).
Proof.
  intros Hs Hdot Hlast Ht Hr He.
  unfold PremiereUploadEDLPlugin.publish_in, run.
  unfold bind at 1. rewrite (populate_publish_template_run _ _ _ _ _ Hs).
  unfold bind at 1, get_item. cbn [item].
  unfold bind at 1. rewrite populated_name, (edl_derive_with_re _ _ Hdot), Hlast.
  rewrite (edl_export_no_render _ _ _ _ _ _ t); cbn [item trace app];
    rewrite ?template_fields_populated; auto.
Qed.

(** ** The properties on the sample inputs *)

(** C1 on an unsaved project. *)
Lemma validate_unsaved_raises_name_error_witness :
  truthy_path (project_path ex_host_unsaved) = false /\
  run (PremiereUploadVersionPlugin.validate ex_host_unsaved ex_settings) ex_item
  = (Raise (NameError "ProjectUnsavedError"),
     {| item := ex_item;
        trace := [EvLog Error "The Premiere project 'shot010_v003.prproj' has not been saved."
                    (__get_save_as_action ex_host_unsaved)] |}) /\
  run (PremiereUploadEDLPlugin.validate ex_host_unsaved ex_settings) ex_item
  = (Raise (NameError "ProjectUnsavedError"),
     {| item := ex_item;
        trace := [EvLog Error "The Premiere project 'shot010_v003.prproj' has not been saved."
                    (__get_save_as_action ex_host_unsaved)] |}).
Proof.
  split; [reflexivity|].
  apply (validate_unsaved_raises_name_error ex_host_unsaved ex_settings ex_item).
  reflexivity.
Defined.

(** C2 on the item name "shot010.010.prproj". *)
Lemma edl_publish_version_unbound_re_witness :
  ex_settings !! "Publish Template" = Some ex_setting /\
  contains "." (name ex_item_edl) = true /\
  (forall st,
      PremiereUploadEDLPlugin.derive_name_version
        PremiereUploadEDLPlugin.module_globals "shot010.010.prproj" st
      = (Raise (NameError "re"), st)) /\
  run (PremiereUploadEDLPlugin.publish ex_host ex_settings) ex_item_edl
  = (Raise (NameError "re"),
     {| item := populated ex_host ex_setting ex_item_edl;
        trace := populate_events ex_host ex_setting |}).
Proof.
  split; [reflexivity|]. split; [reflexivity|].
  apply (edl_publish_version_unbound_re ex_host ex_settings ex_setting ex_item_edl);
    reflexivity.
Defined.

(** C3 on the item name "shot010_v003.prproj": name "shot010_v003",
    version 3. *)
Lemma movie_publish_name_and_version_witness :
  ex_settings !! "Publish Template" = Some ex_setting /\
  last (findall re_v_digits (chars (name ex_item))) = Some (chars "v003") /\
  forall st,
    PremiereUploadVersionPlugin.derive_name_version
      PremiereUploadVersionPlugin.module_globals "shot010_v003.prproj" st
    = (Return ("shot010_v003", 3), st).
Proof.
  split; [reflexivity|]. split; [reflexivity|].
  destruct (movie_publish_name_and_version ex_host ex_settings ex_setting ex_item
              (chars "v003") eq_refl eq_refl) as (ds & Hm & _ & Hderive & _).
  injection Hm as <-. exact Hderive.
Defined.

(** C10 on the item name "shot010". *)
Lemma edl_publish_no_dot_index_error_witness :
  ex_settings !! "Publish Template" = Some ex_setting /\
  contains "." (name ex_item_no_dot) = false /\
  result (run (PremiereUploadEDLPlugin.publish ex_host ex_settings) ex_item_no_dot)
  = Raise IndexError /\
  events (run (PremiereUploadEDLPlugin.publish ex_host ex_settings) ex_item_no_dot)
  = [EvSetProperty "publish_template" (VObj 1)] /\
  Forall (fun ev => renders_or_exports ev = false)
    (events (run (PremiereUploadEDLPlugin.publish ex_host ex_settings) ex_item_no_dot)).
Proof.
  split; [reflexivity|]. split; [reflexivity|].
  apply (edl_publish_no_dot_index_error ex_host ex_settings ex_setting ex_item_no_dot);
    reflexivity.
Defined.

(** C5 on an unsaved project. *)
Lemma accept_is_unconditional_witness :
  ex_settings !! "Publish Template" = Some ex_setting /\
  truthy_path (project_path ex_host_unsaved) = false /\
  result (run (PremiereUploadVersionPlugin.accept ex_host_unsaved ex_settings) ex_item)
  = Return (VDict {[ "accepted" := VBool true; "checked" := VBool true ]}) /\
  result (run (PremiereUploadEDLPlugin.accept ex_host_unsaved ex_settings) ex_item)
  = Return (VDict {[ "accepted" := VBool true; "checked" := VBool true ]}) /\
  In (EvLog Warning "The Premiere project has not been saved."
        (save_as_action_with LambdaEngineSaveAs))
    (events (run (PremiereUploadVersionPlugin.accept ex_host_unsaved ex_settings) ex_item)) /\
  In (EvLog Warning "The Premiere project has not been saved."
        (save_as_action_with LambdaEngineSaveAs))
    (events (run (PremiereUploadEDLPlugin.accept ex_host_unsaved ex_settings) ex_item)).
Proof.
  split; [reflexivity|]. split; [reflexivity|].
  destruct (accept_is_unconditional ex_host_unsaved ex_settings ex_setting ex_item eq_refl)
    as (Hm & He & c & _ & Heq & _ & Hwarn & _).
  assert (c = LambdaEngineSaveAs) as -> by (symmetry; apply save_as_action_with_inj, Heq).
  destruct (Hwarn eq_refl) as [Hwm Hwe]. repeat split; assumption.
Defined.

(** C7 on a saved project that the work template rejects. *)
Lemma validate_template_mismatch_is_not_fatal_witness :
  ex_settings !! "Publish Template" = Some ex_setting /\
  project_path ex_host = Some "/work/shot010_v003.prproj" /\
  properties ex_item !! "work_template" = Some (VObj 2) /\
  template_validate ex_host (VObj 2)
    (ShotgunPath_normalize ex_host "/work/shot010_v003.prproj") = false /\
  run (PremiereUploadVersionPlugin.validate ex_host ex_settings) ex_item
  = (Return (VBool true),
     {| item := validated ex_host ex_setting "/work/shot010_v003.prproj" ex_item;
        trace := [EvLog Warning
                    "The current project does not match the configured work template."
                    (save_file_action_with (save_as_action_with LambdaEngineSaveAs));
                  EvSetProperty "publish_template" (VObj 1);
                  EvSetAttr "name" (VStr "shot010_v003.prproj");
                  EvSetProperty "path" (VStr "/work/shot010_v003.prproj");
                  EvSuperValidate
                    (validated ex_host ex_setting "/work/shot010_v003.prproj" ex_item)] |}) /\
  run (PremiereUploadEDLPlugin.validate ex_host ex_settings) ex_item
  = run (PremiereUploadVersionPlugin.validate ex_host ex_settings) ex_item /\
  callback_of (save_file_action_with (save_as_action_with LambdaEngineSaveAs))
  = Return (save_as_action_with LambdaEngineSaveAs).
Proof.
  split; [reflexivity|]. split; [reflexivity|]. split; [reflexivity|]. split; [reflexivity|].
  destruct (validate_template_mismatch_is_not_fatal ex_host ex_settings ex_setting ex_item
              "/work/shot010_v003.prproj" (VObj 2)
              eq_refl eq_refl ltac:(discriminate) eq_refl eq_refl eq_refl)
    as (c & _ & Heq & Hm & He & Hcb & _).
  assert (c = LambdaEngineSaveAs) as -> by (symmetry; apply save_as_action_with_inj, Heq).
  split; [exact Hm|]. split; [|exact Hcb]. rewrite He, Hm. reflexivity.
Defined.

(** C8 on a context with a shot, with a project only, and with neither. *)
Lemma get_version_entity_choice_witness :
  (PremiereUploadVersionPlugin._get_version_entity (ex_state ex_item)
   = (Return ex_shot, ex_state ex_item) /\
   PremiereUploadEDLPlugin._get_version_entity (ex_state ex_item)
   = (Return ex_shot, ex_state ex_item)) /\
  (PremiereUploadVersionPlugin._get_version_entity (ex_state ex_item_project_only)
   = (Return ex_project, ex_state ex_item_project_only) /\
   PremiereUploadEDLPlugin._get_version_entity (ex_state ex_item_project_only)
   = (Return ex_project, ex_state ex_item_project_only)) /\
  (PremiereUploadVersionPlugin._get_version_entity (ex_state ex_item_unlinked)
   = (Return VNone, ex_state ex_item_unlinked) /\
   PremiereUploadEDLPlugin._get_version_entity (ex_state ex_item_unlinked)
   = (Return VNone, ex_state ex_item_unlinked)).
Proof.
  split; [|split].
  - destruct (get_version_entity_choice (ex_state ex_item)) as (H & _ & _).
    exact (H eq_refl).
  - destruct (get_version_entity_choice (ex_state ex_item_project_only)) as (_ & H & _).
    exact (H eq_refl eq_refl).
  - destruct (get_version_entity_choice (ex_state ex_item_unlinked)) as (_ & _ & H).
    exact (H eq_refl eq_refl).
Defined.

(** C6, amended, on a run where every collaborator answers. *)
Lemma movie_publish_creates_then_uploads_witness :
  let r := run (PremiereUploadVersionPlugin.publish ex_host ex_settings) ex_item in
  ex_settings !! "Publish Template" = Some ex_setting /\
  last (findall re_v_digits (chars (name ex_item))) = Some ("v"%char :: chars "003") /\
  properties ex_item !! "sg_publish_data" = Some (VDict ex_publish_data) /\
  subscript ex_version "id" = Return (VInt 42) /\
  result r = Return VNone /\
  events r !! 7%nat
  = Some (EvSuperPublish (staged (populated ex_host ex_setting ex_item)
                            ex_movie_path ex_publish_data)) /\
  events r !! 11%nat = Some (EvSetProperty "sg_version_data" ex_version) /\
  events r !! 13%nat = Some (EvUpload "Version" (VInt 42) ex_movie_path "sg_uploaded_movie") /\
  events r !! 15%nat = Some (EvSetProperty "upload_path" (VStr ex_movie_path)) /\
  properties (final_item r) !! "sg_version_data" = Some ex_version /\
  properties (final_item r) !! "upload_path" = Some (VStr ex_movie_path).
Proof.
  intros r.
  destruct (movie_publish_creates_then_uploads ex_host ex_settings ex_setting ex_item
              (staged (populated ex_host ex_setting ex_item) ex_movie_path ex_publish_data)
              (chars "003") (VObj 1) ex_movie_path (VStr "shot010_v003.mov")
              ex_publish_data [] ex_version (VInt 42)
              eq_refl eq_refl eq_refl eq_refl eq_refl eq_refl
              eq_refl eq_refl eq_refl eq_refl eq_refl eq_refl) as [H _].
  subst r. rewrite H. repeat split; reflexivity.
Defined.

(** C6, as first stated: on the sample input the version data is on the item
    before the upload is called. *)
Lemma movie_publish_stores_version_data_before_upload :
  result (run (PremiereUploadVersionPlugin.publish ex_host ex_settings) ex_item)
  = Return VNone /\
  ~ version_data_stored_after_upload
      (events (run (PremiereUploadVersionPlugin.publish ex_host ex_settings) ex_item)).
Proof.
  split; [reflexivity|].
  intros H.
  specialize (H 11%nat 13%nat ex_version (VInt 42) ex_movie_path "sg_uploaded_movie"
                eq_refl eq_refl).
  lia.
Qed.

(** C9, amended, on an item nothing was published for. *)
Lemma movie_publish_without_publish_data_witness :
  properties ex_item_fresh !! "sg_publish_data" = None /\
  ex_settings !! "Publish Template" = Some ex_setting /\
  last (findall re_v_digits (chars (name ex_item_fresh))) = Some ("v"%char :: chars "003") /\
  apply_fields ex_host (VObj 1)
    (template_fields ex_host ex_item_fresh (VObj 1) "shot010_v003" 3) = Some ex_movie_path /\
  Forall (fun ev => registers ev = false)
    (events (run (PremiereUploadVersionPlugin.publish ex_host ex_settings) ex_item_fresh)) /\
  result (run (PremiereUploadVersionPlugin.publish ex_host ex_settings) ex_item_fresh)
  = Raise (KeyError "sg_publish_data").
Proof.
  split; [reflexivity|]. split; [reflexivity|]. split; [reflexivity|]. split; [reflexivity|].
  destruct (movie_publish_without_publish_data ex_host ex_settings ex_item_fresh eq_refl)
    as [Hquiet Hkey].
  split; [exact Hquiet|].
  exact (Hkey ex_setting (chars "003") (VObj 1) ex_movie_path (VStr "shot010_v003.mov")
           eq_refl eq_refl eq_refl eq_refl eq_refl eq_refl).
Defined.

(** C9, as first stated: an item without [sg_publish_data] for which the
    call returns, the template having rendered no path. *)
Lemma movie_publish_without_publish_data_may_return :
  properties ex_item_fresh !! "sg_publish_data" = None /\
  result (run (PremiereUploadVersionPlugin.publish ex_host_no_render ex_settings)
            ex_item_fresh)
  = Return VNone /\
  result (run (PremiereUploadVersionPlugin.publish ex_host_no_render ex_settings)
            ex_item_fresh)
  <> Raise (KeyError "sg_publish_data").
Proof. split; [reflexivity|]. split; [reflexivity | discriminate]. Qed.

(** The path check on the sample inputs: the movie plugin logs and returns,
    the EDL plugin stops at [re] before it; with [re] bound it would log and
    return as well. *)
Example movie_publish_no_render_path_ex :
  run (PremiereUploadVersionPlugin.publish ex_host_no_render ex_settings) ex_item
  = (Return VNone,
     {| item := populated ex_host_no_render ex_setting ex_item;
        trace := [EvSetProperty "publish_template" (VObj 1);
                  EvApplyFields (VObj 1)
                    (template_fields ex_host_no_render ex_item (VObj 1) "shot010_v003" 3);
                  EvExportAsMediaDirect VNone PremiereUploadVersionPlugin.preset 2;
                  EvLog Error "No render path found" VNone] |}).
Proof. reflexivity. Qed.

Example edl_publish_no_render_path_ex :
  run (PremiereUploadEDLPlugin.publish ex_host_no_render ex_settings) ex_item_edl
  = (Raise (NameError "re"),
     {| item := populated ex_host_no_render ex_setting ex_item_edl;
        trace := [EvSetProperty "publish_template" (VObj 1)] |}).
Proof. reflexivity. Qed.

Example edl_publish_no_render_path_with_re_ex :
  run (PremiereUploadEDLPlugin.publish_in module_globals_with_re ex_host_no_render ex_settings)
    ex_item_edl
  = (Return VNone,
     {| item := populated ex_host_no_render ex_setting ex_item_edl;
        trace := [EvSetProperty "publish_template" (VObj 1);
                  EvApplyFields (VObj 1)
                    (template_fields ex_host_no_render ex_item_edl (VObj 1) "shot010" 10);
                  EvExportAsFinalCutProXML VNone 1;
                  EvLog Error "No render path found" VNone] |}).
Proof. reflexivity. Qed.

Example edl_derive_with_re_ex :
  PremiereUploadEDLPlugin.derive_name_version module_globals_with_re
    "shot010.010.prproj" (ex_state ex_item_edl)
  = (Return ("shot010", 10), ex_state ex_item_edl).
Proof. reflexivity. Qed.

Example edl_derive_with_re_no_run_ex :
  PremiereUploadEDLPlugin.derive_name_version module_globals_with_re
    "cut.prproj" (ex_state ex_item_edl)
  = (Raise IndexError, ex_state ex_item_edl).
Proof. reflexivity. Qed.


(** * Further properties of the two files *)

(** ** The declared settings *)

Lemma settings_of_dict d :
  HookProperties.settings (VDict d)
  = Return (VDict (HookProperties.premiere_publish_settings ∪ d)).
Proof.
  unfold HookProperties.settings. cbn [truthy].
  destruct (bool_decide (d = ∅)) eqn:Hd; cbn [negb]; [|reflexivity].
  apply bool_decide_eq_true in Hd. now subst d.
Qed.

Lemma settings_returns base schema :
  HookProperties.settings base = Return schema ->
  exists d, schema = VDict (HookProperties.premiere_publish_settings ∪ d).
Proof.
  unfold HookProperties.settings.
  destruct (truthy base) eqn:Hb.
  - destruct base; try discriminate. intros [= <-]. eauto.
  - intros [= <-]. eauto.
Qed.

(** X1. The [settings] property of either class, over any dictionary the
    base class declares: the result holds the "Publish Template" entry of
    the class (type "template", default [None]), also when the base class
    declares an entry of that name, and every other entry of the base class
    as it was.  A base class that declares nothing ([None]) gives the same
    as the empty dictionary. *)
Theorem settings_adds_publish_template (d : gmap string val) :
  exists r,
    HookProperties.settings (VDict d) = Return (VDict r) /\
    (exists entry,
        r !! "Publish Template" = Some (VDict entry) /\
        entry !! "type" = Some (VStr "template") /\
        entry !! "default" = Some VNone) /\
    (forall key, key <> "Publish Template" -> r !! key = d !! key) /\
    HookProperties.settings VNone = HookProperties.settings (VDict ∅).
Proof.
  exists (HookProperties.premiere_publish_settings ∪ d).
  split; [apply settings_of_dict|]. split; [|split].
  - eexists. split; [apply lookup_union_Some_l; reflexivity | split; reflexivity].
  - intros key Hkey. apply lookup_union_r.
    unfold HookProperties.premiere_publish_settings. now apply lookup_singleton_ne.
  - reflexivity.
Qed.

Lemma settings_adds_publish_template_witness :
  exists r,
    HookProperties.settings (VDict ex_base_settings) = Return (VDict r) /\
    r !! "File Types" = ex_base_settings !! "File Types" /\
    r !! "Publish Template"
    = HookProperties.premiere_publish_settings !! "Publish Template".
Proof.
  destruct (settings_adds_publish_template ex_base_settings)
    as (r & Hr & _ & Hkeep & _).
  exists r. split; [exact Hr|]. split.
  - apply Hkeep. discriminate.
  - rewrite settings_of_dict in Hr. injection Hr as <-. reflexivity.
Defined.

(** X2. Settings that hold a [Setting] for every key the class declares are
    enough for [accept]: whatever the base class declares, [accept] of
    either plugin returns the accepted dictionary. *)
Theorem declared_settings_suffice_for_accept
    (base : val) (schema : gmap string val) (settings : gmap string Setting)
    (h : Host) (it : Item) :
  HookProperties.settings base = Return (VDict schema) ->
  conforms settings schema ->
  result (run (PremiereUploadVersionPlugin.accept h settings) it) = Return accepted /\
  result (run (PremiereUploadEDLPlugin.accept h settings) it) = Return accepted.
Proof.
  intros Hschema Hconf.
  destruct (settings_returns _ _ Hschema) as (d & [= ->]).
  destruct (Hconf "Publish Template") as [s Hs].
  { eexists. apply lookup_union_Some_l. reflexivity. }
  unfold PremiereUploadVersionPlugin.accept, PremiereUploadEDLPlugin.accept.
  rewrite !(accept_run _ _ _ _ _ Hs). split; reflexivity.
Qed.

Lemma declared_settings_suffice_for_accept_witness :
  HookProperties.settings VNone = Return (VDict HookProperties.premiere_publish_settings) /\
  conforms ex_settings HookProperties.premiere_publish_settings /\
  result (run (PremiereUploadVersionPlugin.accept ex_host ex_settings) ex_item)
  = Return accepted /\
  result (run (PremiereUploadEDLPlugin.accept ex_host ex_settings) ex_item)
  = Return accepted.
Proof.
  assert (Hconf : conforms ex_settings HookProperties.premiere_publish_settings).
  { intros key [v Hv]. unfold HookProperties.premiere_publish_settings in Hv.
    apply lookup_singleton_Some in Hv as [<- _]. now exists ex_setting. }
  split; [reflexivity|]. split; [exact Hconf|].
  exact (declared_settings_suffice_for_accept VNone _ ex_settings ex_host ex_item
           eq_refl Hconf).
Defined.

(** ** [accept] *)

(** X3. [accept] of either plugin changes nothing on the item but the
    [context_change_allowed] flag, which becomes [False] exactly when the
    "Publish Template" setting has a truthy value. *)
Theorem accept_touches_only_the_context_flag
    (h : Host) (settings : gmap string Setting) (s : Setting) (it : Item) :
  settings !! "Publish Template" = Some s ->
  let after := if truthy (value s) then with_context_change_allowed it false else it in
  final_item (run (PremiereUploadVersionPlugin.accept h settings) it) = after /\
  final_item (run (PremiereUploadEDLPlugin.accept h settings) it) = after /\
  name after = name it /\ description after = description it /\
  context after = context it /\ properties after = properties it /\
  context_change_allowed after
  = (if truthy (value s) then false else context_change_allowed it).
Proof.
  intros Hs after. subst after.
  unfold PremiereUploadVersionPlugin.accept, PremiereUploadEDLPlugin.accept.
  rewrite !(accept_run _ _ _ _ _ Hs). unfold final_item. cbn [snd item].
  destruct (truthy (value s)); repeat split; reflexivity.
Qed.

Lemma accept_touches_only_the_context_flag_witness :
  ex_settings !! "Publish Template" = Some ex_setting /\
  final_item (run (PremiereUploadVersionPlugin.accept ex_host ex_settings) ex_item)
  = with_context_change_allowed ex_item false /\
  final_item (run (PremiereUploadEDLPlugin.accept ex_host ex_settings) ex_item)
  = with_context_change_allowed ex_item false.
Proof.
  split; [reflexivity|].
  destruct (accept_touches_only_the_context_flag ex_host ex_settings ex_setting ex_item
              eq_refl) as (Hm & He & _).
  split; [exact Hm | exact He].
Defined.

Lemma movie_publish_missing_setting h settings it :
  settings !! "Publish Template" = None ->
  run (PremiereUploadVersionPlugin.publish h settings) it
  = (Raise (AttributeError "value"), {| item := it; trace := [] |}).
Proof.
  intros Hs.
  unfold PremiereUploadVersionPlugin.publish, PremiereUploadVersionPlugin.publish_in, run.
  unfold bind at 1. now rewrite (populate_publish_template_missing _ _ _ Hs).
Qed.

Lemma accept_missing_setting self_name h settings it :
  settings !! "Publish Template" = None ->
  run (accept self_name h settings) it
  = (Raise (AttributeError "value"), {| item := it; trace := [] |}).
Proof.
  intros Hs. unfold accept, publish_template_setting_value. run_monad. now rewrite Hs.
Qed.

(** X4. With a settings dictionary that has no "Publish Template" entry,
    [accept] and [publish] of either plugin raise [AttributeError] (the
    attribute [value] read on [None]) before they log, call or write
    anything. *)
Theorem accept_and_publish_need_the_setting
    (h : Host) (settings : gmap string Setting) (it : Item) :
  settings !! "Publish Template" = None ->
  let stopped := (Raise (AttributeError "value"), {| item := it; trace := [] |}) in
  run (PremiereUploadVersionPlugin.accept h settings) it = stopped /\
  run (PremiereUploadEDLPlugin.accept h settings) it = stopped /\
  run (PremiereUploadVersionPlugin.publish h settings) it = stopped /\
  run (PremiereUploadEDLPlugin.publish h settings) it = stopped.
Proof.
  intros Hs stopped. subst stopped.
  unfold PremiereUploadVersionPlugin.accept, PremiereUploadEDLPlugin.accept.
  rewrite !(accept_missing_setting _ _ _ _ Hs).
  rewrite (movie_publish_missing_setting _ _ _ Hs), (edl_publish_missing_setting _ _ _ Hs).
  repeat split.
Qed.

Lemma accept_and_publish_need_the_setting_witness :
  (∅ : gmap string Setting) !! "Publish Template" = None /\
  run (PremiereUploadVersionPlugin.accept ex_host (∅ : gmap string Setting)) ex_item
  = (Raise (AttributeError "value"), {| item := ex_item; trace := [] |}) /\
  run (PremiereUploadEDLPlugin.publish ex_host (∅ : gmap string Setting)) ex_item
  = (Raise (AttributeError "value"), {| item := ex_item; trace := [] |}).
Proof.
  split; [reflexivity|].
  destruct (accept_and_publish_need_the_setting ex_host (∅ : gmap string Setting) ex_item
              (lookup_empty _))
    as (Ha & _ & _ & Hp).
  split; [exact Ha | exact Hp].
Defined.

(** ** [validate] *)

Lemma validate_saved class_name globals h settings s it p :
  existsb (String.eqb "sgtk") globals = true ->
  existsb (String.eqb "os") globals = true ->
  existsb (String.eqb class_name) globals = true ->
  settings !! "Publish Template" = Some s ->
  project_path h = Some p ->
  p <> "" ->
  run (validate class_name globals h settings) it
  = (fst (base_validate h settings (validated h s p it)),
     {| item := snd (base_validate h settings (validated h s p it));
        trace := [work_template_record h it (ShotgunPath_normalize h p)]
                 ++ populate_events h s
                 ++ [EvSetAttr "name" (VStr (os_path_basename h (ShotgunPath_normalize h p)));
                     EvSetProperty "path" (VStr (ShotgunPath_normalize h p));
                     EvSuperValidate (validated h s p it)] |}).
Proof.
  intros Hsgtk Hos Hcls Hs Hp Hne.
  unfold validate, run. rewrite Hp. cbn [truthy_path path_text default from_option id].
  apply String.eqb_neq in Hne. rewrite Hne. cbn [negb].
  unfold global at 1. rewrite Hsgtk.
  unfold bind at 1, ret at 1.
  unfold bind at 1, property_get, bind at 1, get_item, ret. cbn [item].
  assert (Hrec :
    (if truthy (default VNone (properties it !! "work_template"))
     then if negb (template_validate h (default VNone (properties it !! "work_template"))
                     (ShotgunPath_normalize h p))
          then log Warning "The current project does not match the configured work template."
                 (save_file_action h)
          else log Debug "Work template configured and matches project path." VNone
     else log Debug "No work template configured." VNone) {| item := it; trace := [] |}
    = (Return tt,
       {| item := it; trace := [work_template_record h it (ShotgunPath_normalize h p)] |})).
  { unfold work_template_record, mismatch_warning, log, emit.
    destruct (truthy _); [destruct (negb _)|]; reflexivity. }
  unfold bind at 1. rewrite Hrec.
  unfold bind at 1. rewrite (populate_publish_template_run _ _ _ _ _ Hs).
  unfold global at 1. rewrite Hos.
  unfold super_validate, global. rewrite Hcls.
  unfold set_property. run_monad. cbn [item trace].
  unfold validated.
  destruct (base_validate h settings _) as [r it'] eqn:Hb. cbn [fst snd].
  rewrite <- !app_assoc. reflexivity.
Qed.

Lemma validate_saved_missing_setting class_name globals h settings it p :
  existsb (String.eqb "sgtk") globals = true ->
  settings !! "Publish Template" = None ->
  project_path h = Some p ->
  p <> "" ->
  run (validate class_name globals h settings) it
  = (Raise (AttributeError "value"),
     {| item := it; trace := [work_template_record h it (ShotgunPath_normalize h p)] |}).
Proof.
  intros Hsgtk Hs Hp Hne.
  unfold validate, run. rewrite Hp. cbn [truthy_path path_text default from_option id].
  apply String.eqb_neq in Hne. rewrite Hne. cbn [negb].
  unfold global at 1. rewrite Hsgtk.
  unfold bind at 1, ret at 1.
  unfold bind at 1, property_get, bind at 1, get_item, ret. cbn [item].
  unfold bind at 1.
  replace ((if truthy (default VNone (properties it !! "work_template"))
     then if negb (template_validate h (default VNone (properties it !! "work_template"))
                     (ShotgunPath_normalize h p))
          then log Warning "The current project does not match the configured work template."
                 (save_file_action h)
          else log Debug "Work template configured and matches project path." VNone
     else log Debug "No work template configured." VNone) {| item := it; trace := [] |})
    with (Return tt,
       {| item := it; trace := [work_template_record h it (ShotgunPath_normalize h p)] |}).
  - unfold bind at 1. now rewrite (populate_publish_template_missing _ _ _ Hs).
  - unfold work_template_record, mismatch_warning, log, emit.
    destruct (truthy _); [destruct (negb _)|]; reflexivity.
Qed.

(** X5. The unsaved project is the only thing [validate] stops at by itself:
    for a project with a path and settings holding the "Publish Template"
    entry, [validate] of either plugin writes one log record about the work
    template, annotates the item, calls the base class validation and
    returns its result; the record is a warning exactly when a truthy work
    template rejects the path. *)
Theorem validate_saved_reaches_base_validation
    (h : Host) (settings : gmap string Setting) (s : Setting) (it : Item) (p : string) :
  settings !! "Publish Template" = Some s ->
  project_path h = Some p ->
  p <> "" ->
  let path := ShotgunPath_normalize h p in
  let handed := validated h s p it in
  let expected :=
    (fst (base_validate h settings handed),
     {| item := snd (base_validate h settings handed);
        trace := [work_template_record h it path] ++ populate_events h s
                 ++ [EvSetAttr "name" (VStr (os_path_basename h path));
                     EvSetProperty "path" (VStr path);
                     EvSuperValidate handed] |}) in
  run (PremiereUploadVersionPlugin.validate h settings) it = expected /\
  run (PremiereUploadEDLPlugin.validate h settings) it = expected /\
  (work_template_record h it path = mismatch_warning h <->
   truthy (default VNone (properties it !! "work_template")) = true /\
   template_validate h (default VNone (properties it !! "work_template")) path = false).
Proof.
  intros Hs Hp Hne path handed expected. subst path handed expected.
  split; [now apply validate_saved|]. split; [now apply validate_saved|].
  unfold work_template_record, mismatch_warning.
  destruct (truthy _); [destruct (template_validate _ _ _)|]; cbn [negb];
    split; try (intros [? ?]); try discriminate; auto.
Qed.

Lemma validate_saved_reaches_base_validation_witness :
  ex_settings !! "Publish Template" = Some ex_setting /\
  project_path ex_host = Some "/work/shot010_v003.prproj" /\
  result (run (PremiereUploadVersionPlugin.validate ex_host ex_settings) ex_item_project_only)
  = Return (VBool true) /\
  events (run (PremiereUploadEDLPlugin.validate ex_host ex_settings) ex_item_project_only)
  = [EvLog Debug "No work template configured." VNone;
     EvSetProperty "publish_template" (VObj 1);
     EvSetAttr "name" (VStr "shot010_v003.prproj");
     EvSetProperty "path" (VStr "/work/shot010_v003.prproj");
     EvSuperValidate (validated ex_host ex_setting "/work/shot010_v003.prproj"
                        ex_item_project_only)].
Proof.
  split; [reflexivity|]. split; [reflexivity|].
  destruct (validate_saved_reaches_base_validation ex_host ex_settings ex_setting
              ex_item_project_only "/work/shot010_v003.prproj"
              eq_refl eq_refl ltac:(discriminate)) as (Hm & He & _).
  rewrite Hm, He. split; reflexivity.
Defined.

(** X6. What [validate] of either plugin hands to the base class, for a
    saved project: the item named after the base name of the normalized
    project path, with that path under "path", the resolved publish
    template under "publish_template" when the template name resolves (the
    old value otherwise), every other property as it was, and the same
    context, description and flag. *)
Theorem validate_annotates_name_path_and_template
    (h : Host) (settings : gmap string Setting) (s : Setting) (it handed : Item)
    (p : string) :
  settings !! "Publish Template" = Some s ->
  project_path h = Some p ->
  p <> "" ->
  In (EvSuperValidate handed)
     (events (run (PremiereUploadVersionPlugin.validate h settings) it)) \/
  In (EvSuperValidate handed)
     (events (run (PremiereUploadEDLPlugin.validate h settings) it)) ->
  let path := ShotgunPath_normalize h p in
  let template := get_template_by_name h (value s) in
  name handed = os_path_basename h path /\
  properties handed !! "path" = Some (VStr path) /\
  properties handed !! "publish_template"
  = (if truthy template then Some template else properties it !! "publish_template") /\
  (forall key, key <> "path" -> key <> "publish_template" ->
               properties handed !! key = properties it !! key) /\
  context handed = context it /\ description handed = description it /\
  context_change_allowed handed = context_change_allowed it.
Proof.
  intros Hs Hp Hne Hin path template. subst path template.
  assert (handed = validated h s p it) as ->.
  { unfold PremiereUploadVersionPlugin.validate, PremiereUploadEDLPlugin.validate in Hin.
    rewrite !(validate_saved _ _ _ _ s it p) in Hin by (reflexivity || assumption).
    destruct Hin as [Hin|Hin];
      unfold events in Hin; cbn [snd trace] in Hin;
      apply in_app_or in Hin as [Hin|Hin];
      try (apply in_app_or in Hin as [Hin|Hin]).
    all: try (unfold populate_events in Hin; destruct (truthy _); cbn in Hin;
              intuition discriminate).
    all: try (unfold work_template_record, mismatch_warning in Hin;
              destruct (truthy _); [destruct (negb _)|]; cbn in Hin;
              intuition discriminate).
    all: cbn in Hin; destruct Hin as [Hin|[Hin|[Hin|[]]]]; try discriminate;
      now injection Hin. }
  unfold validated, populated.
  destruct (truthy (get_template_by_name h (value s)));
    cbn [name properties context description context_change_allowed with_name with_properties].
  - repeat split.
    + apply lookup_insert_eq.
    + rewrite lookup_insert_ne by discriminate. apply lookup_insert_eq.
    + intros key H1 H2. now rewrite !lookup_insert_ne by congruence.
  - repeat split.
    + apply lookup_insert_eq.
    + now rewrite lookup_insert_ne by discriminate.
    + intros key H1 H2. now rewrite !lookup_insert_ne by congruence.
Qed.

Lemma validate_annotates_name_path_and_template_witness :
  ex_settings !! "Publish Template" = Some ex_setting /\
  project_path ex_host = Some "/work/shot010_v003.prproj" /\
  In (EvSuperValidate (validated ex_host ex_setting "/work/shot010_v003.prproj" ex_item))
     (events (run (PremiereUploadVersionPlugin.validate ex_host ex_settings) ex_item)) /\
  name (validated ex_host ex_setting "/work/shot010_v003.prproj" ex_item)
  = "shot010_v003.prproj" /\
  properties (validated ex_host ex_setting "/work/shot010_v003.prproj" ex_item)
    !! "sg_publish_data"
  = properties ex_item !! "sg_publish_data".
Proof.
  assert (Hin : In (EvSuperValidate
                      (validated ex_host ex_setting "/work/shot010_v003.prproj" ex_item))
                   (events (run (PremiereUploadVersionPlugin.validate ex_host ex_settings)
                              ex_item))).
  { vm_compute. do 4 right. left. reflexivity. }
  split; [reflexivity|]. split; [reflexivity|]. split; [exact Hin|].
  destruct (validate_annotates_name_path_and_template ex_host ex_settings ex_setting ex_item
              _ "/work/shot010_v003.prproj" eq_refl eq_refl ltac:(discriminate)
              (or_introl Hin)) as (Hname & _ & _ & Hkeep & _).
  split; [exact Hname|]. apply Hkeep; discriminate.
Defined.

(** X7. For a saved project and settings without the "Publish Template"
    entry, [validate] of either plugin raises [AttributeError] right after
    the log record about the work template: the item is not annotated and
    the base class validation is not called. *)
Theorem validate_needs_the_setting
    (h : Host) (settings : gmap string Setting) (it : Item) (p : string) :
  settings !! "Publish Template" = None ->
  project_path h = Some p ->
  p <> "" ->
  let stopped :=
    (Raise (AttributeError "value"),
     {| item := it; trace := [work_template_record h it (ShotgunPath_normalize h p)] |}) in
  run (PremiereUploadVersionPlugin.validate h settings) it = stopped /\
  run (PremiereUploadEDLPlugin.validate h settings) it = stopped.
Proof.
  intros Hs Hp Hne stopped. subst stopped.
  split; now apply validate_saved_missing_setting.
Qed.

Lemma validate_needs_the_setting_witness :
  (∅ : gmap string Setting) !! "Publish Template" = None /\
  project_path ex_host = Some "/work/shot010_v003.prproj" /\
  run (PremiereUploadVersionPlugin.validate ex_host (∅ : gmap string Setting)) ex_item
  = (Raise (AttributeError "value"),
     {| item := ex_item; trace := [mismatch_warning ex_host] |}).
Proof.
  split; [reflexivity|]. split; [reflexivity|].
  exact (proj1 (validate_needs_the_setting ex_host (∅ : gmap string Setting) ex_item
                  "/work/shot010_v003.prproj" (lookup_empty _) eq_refl
                  ltac:(discriminate))).
Defined.

(** ** [__get_save_as_action] and [_get_version_entity] *)

Lemma hasattr_In app attr : hasattr app attr = true <-> In attr (app_attrs app).
Proof.
  unfold hasattr. rewrite existsb_exists. split.
  - intros (x & Hx & Heq). apply String.eqb_eq in Heq. now subst.
  - intros Hin. exists attr. split; [exact Hin | apply String.eqb_refl].
Qed.

(** X8. The save-as action always has the label "Save As..."; its callback
    is the [show_file_save_dlg] of the app registered as
    "tk-multi-workfiles2" when there is such an app with that attribute,
    and [engine.save_as] in every other case. *)
Theorem save_as_action_callback (h : Host) :
  (forall app,
      engine_apps h !! "tk-multi-workfiles2" = Some app ->
      In "show_file_save_dlg" (app_attrs app) ->
      __get_save_as_action h
      = save_as_action_with (BoundMethod "tk-multi-workfiles2" "show_file_save_dlg")) /\
  (engine_apps h !! "tk-multi-workfiles2" = None ->
   __get_save_as_action h = save_as_action_with LambdaEngineSaveAs) /\
  (forall app,
      engine_apps h !! "tk-multi-workfiles2" = Some app ->
      ~ In "show_file_save_dlg" (app_attrs app) ->
      __get_save_as_action h = save_as_action_with LambdaEngineSaveAs).
Proof.
  unfold __get_save_as_action, save_as_action_with. split; [|split].
  - intros app -> Hin. apply hasattr_In in Hin. now rewrite Hin.
  - now intros ->.
  - intros app -> Hin.
    destruct (hasattr app "show_file_save_dlg") eqn:Hattr; [|reflexivity].
    apply hasattr_In in Hattr. contradiction.
Qed.

Lemma save_as_action_callback_witness :
  __get_save_as_action ex_host_workfiles
  = save_as_action_with (BoundMethod "tk-multi-workfiles2" "show_file_save_dlg") /\
  __get_save_as_action ex_host = save_as_action_with LambdaEngineSaveAs.
Proof.
  destruct (save_as_action_callback ex_host_workfiles) as (Hdlg & _ & _).
  destruct (save_as_action_callback ex_host) as (_ & Hdefault & _).
  split.
  - apply (Hdlg {| app_attrs := ["show_file_open_dlg"; "show_file_save_dlg"] |});
      [reflexivity | right; left; reflexivity].
  - apply Hdefault. reflexivity.
Defined.

(** X9. The entity [_get_version_entity] returns is [None] or truthy, and it
    is the context's entity, its project or [None]: an empty entity
    dictionary is never linked. *)
Theorem version_entity_is_none_or_truthy (st : State) :
  exists v,
    PremiereUploadVersionPlugin._get_version_entity st = (Return v, st) /\
    PremiereUploadEDLPlugin._get_version_entity st = (Return v, st) /\
    (v = VNone \/ truthy v = true) /\
    (v = entity (context (item st)) \/ v = project (context (item st)) \/ v = VNone).
Proof.
  exists (version_entity (context (item st))).
  unfold PremiereUploadVersionPlugin._get_version_entity,
    PremiereUploadEDLPlugin._get_version_entity.
  rewrite get_version_entity_run. split; [reflexivity|]. split; [reflexivity|].
  unfold version_entity.
  destruct (truthy (entity _)) eqn:He; [auto|].
  destruct (truthy (project _)) eqn:Hp; auto.
Qed.

(** ** The name and version of the movie plugin (lines 267-270) *)

Lemma match_here_split r : forall s m rest,
  match_here r s = Some (m, rest) -> s = (m ++ rest)%list.
Proof.
  induction r as [|a r IH]; intros s m rest H.
  - simpl in H. now injection H as <- <-.
  - apply match_here_cons in H as (k & m' & _ & H & ->).
    apply IH in H. rewrite <- app_assoc, <- H. symmetry. apply firstn_skipn.
Qed.

(** Every element of [findall] is a piece of the text. *)
Lemma findall_from_piece r s skip m :
  In m (findall_from r s skip) ->
  exists pre rest, s = (pre ++ m ++ rest)%list /\ match_here r (m ++ rest) = Some (m, rest).
Proof.
  revert skip. induction s as [|c s IH]; intros skip; simpl.
  - destruct skip; [|intros []].
    destruct (match_here r []) as [[m' rest]|] eqn:Hm; [|intros []].
    intros [<-|[]]. exists [], rest. pose proof (match_here_split _ _ _ _ Hm) as Hs.
    split; [exact Hs | now rewrite <- Hs].
  - destruct skip as [|k].
    + destruct (match_here r (c :: s)) as [[m' rest]|] eqn:Hm.
      * intros [<-|H].
        -- exists [], rest. pose proof (match_here_split _ _ _ _ Hm) as Hs.
           split; [exact Hs | now rewrite <- Hs].
        -- apply IH in H as (pre & rest' & -> & H). now exists (c :: pre), rest'.
      * intros H. apply IH in H as (pre & rest' & -> & H). now exists (c :: pre), rest'.
    + intros H. apply IH in H as (pre & rest' & -> & H). now exists (c :: pre), rest'.
Qed.

Lemma match_here_last a s :
  (rmin a <= run_length (cls a) (rmax a) s)%nat ->
  exists m rest, match_here [a] s = Some (m, rest).
Proof.
  intros Hmin. simpl.
  destruct (run_length (cls a) (rmax a) s) as [|n];
    apply Nat.leb_le in Hmin; rewrite Hmin; eauto.
Qed.

Lemma match_v_digits_at_tag d post :
  is_digit d = true ->
  exists m rest, match_here re_v_digits ("v"%char :: d :: post) = Some (m, rest).
Proof.
  intros Hd.
  destruct (match_here_last (Atom digit 1 None) (d :: post)) as (m & rest & Hm).
  { cbn [cls rmin rmax run_length]. change (in_class digit d) with (is_digit d).
    rewrite Hd. lia. }
  assert (Hrun : run_length (Lit "v") (Some 1%nat) ("v"%char :: d :: post) = 1%nat).
  { cbn. now destruct (Ascii.eqb d "v"). }
  unfold re_v_digits.
  change (match_here (Atom (Lit "v") 1 (Some 1%nat) :: [Atom digit 1 None])
            ("v"%char :: d :: post))
    with ((fix try (k : nat) : option (list ascii * list ascii) :=
             let here :=
               if (1 <=? k)%nat then
                 match match_here [Atom digit 1 None] (skipn k ("v"%char :: d :: post)) with
                 | Some (m, rest) => Some ((firstn k ("v"%char :: d :: post) ++ m)%list, rest)
                 | None => None
                 end
               else None in
             match here with
             | Some x => Some x
             | None => match k with O => None | S k' => try k' end
             end) (run_length (Lit "v") (Some 1%nat) ("v"%char :: d :: post))).
  rewrite Hrun. cbn [Nat.leb skipn]. rewrite Hm. eauto.
Qed.

Lemma findall_v_digits_of_tag pre d post :
  is_digit d = true ->
  findall_from re_v_digits (pre ++ "v"%char :: d :: post) 0 <> [].
Proof.
  intros Hd. induction pre as [|c pre IH].
  - destruct (match_v_digits_at_tag d post Hd) as (m & rest & Hm).
    cbn [app findall_from]. now rewrite Hm.
  - cbn [app findall_from].
    destruct (match_here re_v_digits _) as [[m rest]|]; [discriminate | exact IH].
Qed.

Lemma findall_v_digits_tag s :
  findall re_v_digits s <> [] <-> has_version_tag s.
Proof.
  split.
  - intros Hne. destruct (findall re_v_digits s) as [|m ms] eqn:Hf; [congruence|].
    assert (Hin : In m (findall re_v_digits s)) by (rewrite Hf; now left).
    destruct (findall_v_digits_shape _ _ Hin) as (ds & -> & Hds & Hdig).
    apply findall_from_piece in Hin as (pre & rest & -> & _).
    destruct ds as [|d ds]; [congruence|].
    cbn in Hdig. apply andb_true_iff in Hdig as [Hd _].
    exists pre, d, (ds ++ rest)%list. split; [reflexivity | exact Hd].
  - intros (pre & d & post & -> & Hd). now apply findall_v_digits_of_tag.
Qed.

Lemma movie_derive_no_tag item_name st :
  findall re_v_digits (chars item_name) = [] ->
  PremiereUploadVersionPlugin.derive_name_version
    PremiereUploadVersionPlugin.module_globals item_name st
  = (Raise IndexError, st).
Proof.
  intros Hf. unfold PremiereUploadVersionPlugin.derive_name_version. run_monad.
  rewrite index_split_0. cbn [existsb PremiereUploadVersionPlugin.module_globals String.eqb].
  now rewrite Hf.
Qed.

(** X10. The movie plugin derives a name and a version exactly for the item
    names that have a [v] directly followed by a digit somewhere; for every
    other name line 269 raises [IndexError].  Neither case touches the item
    or the trace. *)
Theorem movie_version_needs_a_tag (item_name : string) (st : State) :
  (has_version_tag (chars item_name) ->
   exists nm ver,
     PremiereUploadVersionPlugin.derive_name_version
       PremiereUploadVersionPlugin.module_globals item_name st
     = (Return (nm, ver), st)) /\
  (~ has_version_tag (chars item_name) ->
   PremiereUploadVersionPlugin.derive_name_version
     PremiereUploadVersionPlugin.module_globals item_name st
   = (Raise IndexError, st)).
Proof.
  split.
  - intros Htag. apply findall_v_digits_tag in Htag.
    destruct (last (findall re_v_digits (chars item_name))) as [m|] eqn:Hlast.
    + destruct (movie_derive_name_version _ _ st Hlast) as (ds & _ & _ & H). eauto.
    + apply last_None in Hlast. contradiction.
  - intros Hno. apply movie_derive_no_tag.
    destruct (findall re_v_digits (chars item_name)) eqn:Hf; [reflexivity|].
    exfalso. apply Hno, findall_v_digits_tag. rewrite Hf. discriminate.
Qed.

Lemma movie_version_needs_a_tag_witness :
  has_version_tag (chars "shot010_v003.prproj") /\
  ~ has_version_tag (chars "shot010.prproj") /\
  PremiereUploadVersionPlugin.derive_name_version
    PremiereUploadVersionPlugin.module_globals "shot010.prproj" (ex_state ex_item)
  = (Raise IndexError, ex_state ex_item) /\
  exists nm ver,
    PremiereUploadVersionPlugin.derive_name_version
      PremiereUploadVersionPlugin.module_globals "shot010_v003.prproj" (ex_state ex_item)
    = (Return (nm, ver), ex_state ex_item).
Proof.
  assert (Hyes : has_version_tag (chars "shot010_v003.prproj")).
  { exists (chars "shot010_"), "0"%char, (chars "03.prproj"). split; reflexivity. }
  assert (Hno : ~ has_version_tag (chars "shot010.prproj")).
  { intros H. apply findall_v_digits_tag in H. now apply H. }
  split; [exact Hyes|]. split; [exact Hno|]. split.
  - exact (proj2 (movie_version_needs_a_tag "shot010.prproj" (ex_state ex_item)) Hno).
  - exact (proj1 (movie_version_needs_a_tag "shot010_v003.prproj" (ex_state ex_item)) Hyes).
Defined.

Lemma before_first_no_sep sep s : contains sep (before_first sep s) = false.
Proof.
  unfold contains, chars. induction s as [|c s IH]; simpl; [reflexivity|].
  destruct (Ascii.eqb c sep) eqn:Hc; simpl; [reflexivity|]. now rewrite Hc.
Qed.

Lemma before_first_prefix sep s : exists rest, s = before_first sep s +:+ rest.
Proof.
  induction s as [|c s [rest IH]]; simpl.
  - now exists "".
  - destruct (Ascii.eqb c sep).
    + now exists (String c s).
    + exists rest. change (String c s = String c (before_first sep s +:+ rest)).
      f_equal. exact IH.
Qed.

Lemma before_first_all sep s : contains sep s = false -> before_first sep s = s.
Proof.
  unfold contains, chars. induction s as [|c s IH]; simpl; [reflexivity|].
  destruct (Ascii.eqb c sep); simpl; [discriminate|]. intros H. now rewrite (IH H).
Qed.

Lemma digit_value_bounds c : is_digit c = true -> 0 <= digit_value c <= 9.
Proof.
  unfold is_digit, digit_value. intros H. apply andb_true_iff in H as [Hlo Hhi].
  apply Nat.leb_le in Hlo, Hhi. lia.
Qed.

Lemma digits_value_nonneg ds : forall acc,
  0 <= acc -> forallb is_digit ds = true -> 0 <= digits_value acc ds.
Proof.
  induction ds as [|c ds IH]; intros acc Hacc Hds; simpl; [exact Hacc|].
  simpl in Hds. apply andb_true_iff in Hds as [Hc Hds].
  apply IH; [|exact Hds]. pose proof (digit_value_bounds c Hc). lia.
Qed.

(** X11. Whenever the movie plugin derives a name and a version, the name
    is a prefix of the item name without any dot (the whole item name when
    that has no dot), and the version is not negative. *)
Theorem movie_name_is_dot_free_prefix
    (item_name nm : string) (ver : Z) (st st' : State) :
  PremiereUploadVersionPlugin.derive_name_version
    PremiereUploadVersionPlugin.module_globals item_name st
  = (Return (nm, ver), st') ->
  contains "." nm = false /\
  (exists rest, item_name = nm +:+ rest) /\
  (contains "." item_name = false -> nm = item_name) /\
  0 <= ver.
Proof.
  intros H.
  destruct (last (findall re_v_digits (chars item_name))) as [m|] eqn:Hlast.
  - destruct (movie_derive_name_version _ _ st Hlast) as (ds & _ & [_ Hds] & Heq).
    rewrite Heq in H. injection H as <- <- _.
    split; [apply before_first_no_sep|]. split; [apply before_first_prefix|].
    split; [apply before_first_all|]. now apply digits_value_nonneg.
  - apply last_None in Hlast. rewrite (movie_derive_no_tag _ _ Hlast) in H. discriminate.
Qed.

Lemma movie_name_is_dot_free_prefix_witness :
  PremiereUploadVersionPlugin.derive_name_version
    PremiereUploadVersionPlugin.module_globals "shot010_v003.review.prproj" (ex_state ex_item)
  = (Return ("shot010_v003", 3), ex_state ex_item) /\
  contains "." "shot010_v003" = false /\
  (exists rest, "shot010_v003.review.prproj" = "shot010_v003" +:+ rest) /\
  0 <= 3.
Proof.
  split; [reflexivity|].
  destruct (movie_name_is_dot_free_prefix "shot010_v003.review.prproj" "shot010_v003" 3
              (ex_state ex_item) (ex_state ex_item) eq_refl) as (Hdot & Hpre & _ & Hver).
  split; [exact Hdot|]. split; [exact Hpre | exact Hver].
Defined.

(** ** The movie plugin's [publish] when a step fails *)

Ltac register_steps Hcode Hd Hbase :=
  unfold PremiereUploadVersionPlugin.register_and_upload, super_publish;
  rewrite Hcode; run_monad;
  rewrite get_version_entity_run; cbn [item trace with_properties properties context];
  rewrite get_version_entity_run; cbn [item trace with_properties properties context];
  rewrite !lookup_insert_ne by done; rewrite Hd; cbn [store_subscript];
  cbn [existsb PremiereUploadVersionPlugin.module_globals String.eqb Ascii.eqb Bool.eqb orb];
  cbn [item trace]; unfold staged in Hbase; unfold with_properties in Hbase |- *;
  cbn [properties name description context context_change_allowed] in Hbase |- *;
  rewrite Hbase; cbn [item trace with_properties properties].

Ltac finish_register :=
  unfold version_payload, published_files, show_more_info, staged, with_properties;
  cbn [properties name description context context_change_allowed];
  rewrite <- ?app_assoc; reflexivity.

Lemma register_base_fails h settings p st d code it' e :
  subscript (get_file_path_components h p) "filename" = Return code ->
  properties (item st) !! "sg_publish_data" = Some (VDict d) ->
  base_publish h settings (staged (item st) p d) = (Raise e, it') ->
  PremiereUploadVersionPlugin.register_and_upload
    PremiereUploadVersionPlugin.module_globals h settings p st
  = (Raise e,
     {| item := it';
        trace := trace st ++
                 [EvLog Info "Creating Version..." VNone;
                  EvSetProperty "path" (VStr p);
                  EvSetProperty "publish_type" (VStr "Rendered Image");
                  EvSetProperty "sg_publish_data"
                    (VDict (<["upstream_published_files" :=
                                version_entity (context (item st))]> d));
                  EvSuperPublish (staged (item st) p d)] |}).
Proof. intros Hcode Hd Hbase. register_steps Hcode Hd Hbase. finish_register. Qed.

Lemma register_create_fails h settings p st d code it' renderings e :
  subscript (get_file_path_components h p) "filename" = Return code ->
  properties (item st) !! "sg_publish_data" = Some (VDict d) ->
  base_publish h settings (staged (item st) p d) = (Return tt, it') ->
  default (VList []) (properties it' !! "published_renderings") = VList renderings ->
  shotgun_create h "Version"
    (version_payload (item st) code p (published_files it' renderings)) = Raise e ->
  PremiereUploadVersionPlugin.register_and_upload
    PremiereUploadVersionPlugin.module_globals h settings p st
  = (Raise e,
     {| item := it';
        trace := trace st ++
                 [EvLog Info "Creating Version..." VNone;
                  EvSetProperty "path" (VStr p);
                  EvSetProperty "publish_type" (VStr "Rendered Image");
                  EvSetProperty "sg_publish_data"
                    (VDict (<["upstream_published_files" :=
                                version_entity (context (item st))]> d));
                  EvSuperPublish (staged (item st) p d);
                  EvLog Debug "Populated Version data..."
                    (show_more_info h
                       (version_payload (item st) code p (published_files it' renderings)));
                  EvLog Info "Creating version for review..." VNone;
                  EvCreate "Version"
                    (version_payload (item st) code p (published_files it' renderings))] |}).
Proof.
  intros Hcode Hd Hbase Hrs Hcreate. register_steps Hcode Hd Hbase.
  rewrite Hrs. cbn [iterate]. unfold version_payload, published_files in Hcreate.
  rewrite Hcreate. cbn [item trace]. finish_register.
Qed.

Lemma register_upload_fails h settings p st d code it' renderings version id e :
  subscript (get_file_path_components h p) "filename" = Return code ->
  properties (item st) !! "sg_publish_data" = Some (VDict d) ->
  base_publish h settings (staged (item st) p d) = (Return tt, it') ->
  default (VList []) (properties it' !! "published_renderings") = VList renderings ->
  shotgun_create h "Version"
    (version_payload (item st) code p (published_files it' renderings)) = Return version ->
  subscript version "id" = Return id ->
  shotgun_upload h "Version" id p "sg_uploaded_movie" = Raise e ->
  PremiereUploadVersionPlugin.register_and_upload
    PremiereUploadVersionPlugin.module_globals h settings p st
  = (Raise e,
     {| item := with_properties it' (<["sg_version_data" := version]> (properties it'));
        trace := trace st ++
                 firstn 11 (register_and_upload_events h (item st) it' p d code renderings
                              version id) |}).
Proof.
  intros Hcode Hd Hbase Hrs Hcreate Hid Hupload. register_steps Hcode Hd Hbase.
  rewrite Hrs. cbn [iterate]. unfold version_payload, published_files in Hcreate.
  rewrite Hcreate. cbn [item trace]. rewrite Hid, Hupload. cbn [item trace].
  unfold register_and_upload_events. cbn [firstn]. finish_register.
Qed.

Lemma register_no_id h settings p st d code it' renderings version e :
  subscript (get_file_path_components h p) "filename" = Return code ->
  properties (item st) !! "sg_publish_data" = Some (VDict d) ->
  base_publish h settings (staged (item st) p d) = (Return tt, it') ->
  default (VList []) (properties it' !! "published_renderings") = VList renderings ->
  shotgun_create h "Version"
    (version_payload (item st) code p (published_files it' renderings)) = Return version ->
  subscript version "id" = Raise e ->
  PremiereUploadVersionPlugin.register_and_upload
    PremiereUploadVersionPlugin.module_globals h settings p st
  = (Raise e,
     {| item := with_properties it' (<["sg_version_data" := version]> (properties it'));
        trace := trace st ++
                 firstn 10 (register_and_upload_events h (item st) it' p d code renderings
                              version VNone) |}).
Proof.
  intros Hcode Hd Hbase Hrs Hcreate Hid. register_steps Hcode Hd Hbase.
  rewrite Hrs. cbn [iterate]. unfold version_payload, published_files in Hcreate.
  rewrite Hcreate. cbn [item trace]. rewrite Hid. cbn [item trace].
  unfold register_and_upload_events. cbn [firstn]. finish_register.
Qed.

Lemma register_publish_data_not_a_dict globals h settings p st code v :
  subscript (get_file_path_components h p) "filename" = Return code ->
  properties (item st) !! "sg_publish_data" = Some v ->
  (forall d, v <> VDict d) ->
  PremiereUploadVersionPlugin.register_and_upload globals h settings p st
  = (Raise TypeError,
     {| item := with_properties (item st)
                  (<["publish_type" := VStr "Rendered Image"]>
                     (<["path" := VStr p]> (properties (item st))));
        trace := trace st ++
                 [EvLog Info "Creating Version..." VNone;
                  EvSetProperty "path" (VStr p);
                  EvSetProperty "publish_type" (VStr "Rendered Image")] |}).
Proof.
  intros Hcode Hd Hv. unfold PremiereUploadVersionPlugin.register_and_upload.
  rewrite Hcode. run_monad.
  rewrite get_version_entity_run. cbn [item trace with_properties properties context].
  rewrite get_version_entity_run. cbn [item trace with_properties properties context].
  rewrite !lookup_insert_ne by done. rewrite Hd.
  destruct v; try (rewrite <- !app_assoc; reflexivity).
  now destruct (Hv d).
Qed.

(** The movie plugin's [publish] up to the export: the state in which lines
    289-352 start. *)
Lemma movie_publish_reaches_registration h settings s it ds t p :
  settings !! "Publish Template" = Some s ->
  last (findall re_v_digits (chars (name it))) = Some ("v"%char :: ds) ->
  properties (populated h s it) !! "publish_template" = Some t ->
  apply_fields h t
    (template_fields h it t (before_first "." (name it)) (digits_value 0 ds)) = Some p ->
  exportAsMediaDirect h (VStr p) PremiereUploadVersionPlugin.preset 2 = Return tt ->
  run (PremiereUploadVersionPlugin.publish h settings) it
  = PremiereUploadVersionPlugin.register_and_upload
      PremiereUploadVersionPlugin.module_globals h settings p
      {| item := populated h s it;
         trace := populate_events h s ++
                  [EvApplyFields t
                     (template_fields h it t (before_first "." (name it))
                        (digits_value 0 ds));
                   EvExportAsMediaDirect (VStr p) PremiereUploadVersionPlugin.preset 2] |}.
Proof.
  intros Hs Hlast Ht Hr He. rewrite (movie_publish_run _ _ _ _ _ Hs Hlast).
  rewrite (movie_export_render _ _ _ _ _ _ t p); cbn [item trace];
    rewrite ?template_fields_populated; auto.
Qed.

Lemma movie_publish_derives h settings s it :
  settings !! "Publish Template" = Some s ->
  run (PremiereUploadVersionPlugin.publish h settings) it
  = (nv <- PremiereUploadVersionPlugin.derive_name_version
             PremiereUploadVersionPlugin.module_globals (name it) ;;
     PremiereUploadVersionPlugin.export_and_publish
       PremiereUploadVersionPlugin.module_globals h settings nv)
      {| item := populated h s it; trace := populate_events h s |}.
Proof.
  intros Hs.
  unfold PremiereUploadVersionPlugin.publish, PremiereUploadVersionPlugin.publish_in, run.
  unfold bind at 1. rewrite (populate_publish_template_run _ _ _ _ _ Hs).
  unfold bind at 1, get_item. cbn [item]. now rewrite populated_name.
Qed.

Lemma has_version_tag_last s :
  has_version_tag s ->
  exists ds, last (findall re_v_digits s) = Some ("v"%char :: ds) /\ digit_run ds.
Proof.
  intros Htag. apply findall_v_digits_tag in Htag.
  destruct (last (findall re_v_digits s)) as [m|] eqn:Hlast.
  - destruct (findall_v_digits_shape _ _ (last_In _ _ Hlast)) as (ds & -> & Hds). eauto.
  - apply last_None in Hlast. contradiction.
Qed.

Lemma movie_export_no_template globals h settings nv st :
  properties (item st) !! "publish_template" = None ->
  PremiereUploadVersionPlugin.export_and_publish globals h settings nv st
  = (Raise (KeyError "publish_template"), st).
Proof.
  intros Ht. unfold PremiereUploadVersionPlugin.export_and_publish. run_monad.
  now rewrite Ht.
Qed.

Lemma movie_export_fails globals h settings nm ver st t e :
  properties (item st) !! "publish_template" = Some t ->
  exportAsMediaDirect h
    (of_path (apply_fields h t (template_fields h (item st) t nm ver)))
    PremiereUploadVersionPlugin.preset 2 = Raise e ->
  PremiereUploadVersionPlugin.export_and_publish globals h settings (nm, ver) st
  = (Raise e,
     {| item := item st;
        trace := trace st ++
                 [EvApplyFields t (template_fields h (item st) t nm ver);
                  EvExportAsMediaDirect
                    (of_path (apply_fields h t (template_fields h (item st) t nm ver)))
                    PremiereUploadVersionPlugin.preset 2] |}).
Proof.
  intros Ht He. unfold PremiereUploadVersionPlugin.export_and_publish. run_monad.
  rewrite Ht. cbn [item trace fst snd]. unfold template_fields in He |- *. rewrite He.
  cbn [item trace]. now rewrite <- !app_assoc.
Qed.

(** X12. For an item whose name has no [v] followed by a digit, the movie
    plugin's [publish] raises [IndexError] before the template is rendered
    and before the export is called; at most the publish template was
    stored on the item. *)
Theorem movie_publish_untagged_name
    (h : Host) (settings : gmap string Setting) (s : Setting) (it : Item) :
  settings !! "Publish Template" = Some s ->
  ~ has_version_tag (chars (name it)) ->
  run (PremiereUploadVersionPlugin.publish h settings) it
  = (Raise IndexError, {| item := populated h s it; trace := populate_events h s |}) /\
  Forall (fun ev => renders_or_exports ev = false /\ registers ev = false)
    (populate_events h s).
Proof.
  intros Hs Hno. split.
  - rewrite (movie_publish_derives _ _ _ _ Hs). unfold bind.
    rewrite movie_derive_no_tag; [reflexivity|].
    destruct (findall re_v_digits (chars (name it))) eqn:Hf; [reflexivity|].
    exfalso. apply Hno, findall_v_digits_tag. rewrite Hf. discriminate.
  - eapply Forall_impl; [apply populate_events_quiet|]. now intros ev (? & ? & _).
Qed.

Lemma movie_publish_untagged_name_witness :
  ex_settings !! "Publish Template" = Some ex_setting /\
  ~ has_version_tag (chars (name ex_item_untagged)) /\
  run (PremiereUploadVersionPlugin.publish ex_host ex_settings) ex_item_untagged
  = (Raise IndexError,
     {| item := populated ex_host ex_setting ex_item_untagged;
        trace := [EvSetProperty "publish_template" (VObj 1)] |}).
Proof.
  assert (Hno : ~ has_version_tag (chars (name ex_item_untagged))).
  { intros H. apply findall_v_digits_tag in H. now apply H. }
  split; [reflexivity|]. split; [exact Hno|].
  exact (proj1 (movie_publish_untagged_name ex_host ex_settings ex_setting ex_item_untagged
                  eq_refl Hno)).
Defined.

(** X13. When the template name of the setting does not resolve and the
    item carries no "publish_template" of its own, the movie plugin's
    [publish] raises [KeyError('publish_template')] on a versioned name
    without having logged, rendered, exported or stored anything. *)
Theorem movie_publish_needs_a_template
    (h : Host) (settings : gmap string Setting) (s : Setting) (it : Item) :
  settings !! "Publish Template" = Some s ->
  has_version_tag (chars (name it)) ->
  truthy (get_template_by_name h (value s)) = false ->
  properties it !! "publish_template" = None ->
  run (PremiereUploadVersionPlugin.publish h settings) it
  = (Raise (KeyError "publish_template"), {| item := it; trace := [] |}).
Proof.
  intros Hs Htag Hfalsy Ht.
  destruct (has_version_tag_last _ Htag) as (ds & Hlast & _).
  rewrite (movie_publish_run _ _ _ _ _ Hs Hlast).
  unfold populated, populate_events. rewrite Hfalsy.
  now apply movie_export_no_template.
Qed.

Lemma movie_publish_needs_a_template_witness :
  ex_settings !! "Publish Template" = Some ex_setting /\
  has_version_tag (chars (name ex_item)) /\
  properties ex_item !! "publish_template" = None /\
  run (PremiereUploadVersionPlugin.publish ex_host_no_template ex_settings) ex_item
  = (Raise (KeyError "publish_template"), {| item := ex_item; trace := [] |}).
Proof.
  assert (Htag : has_version_tag (chars (name ex_item))).
  { exists (chars "shot010_"), "0"%char, (chars "03.prproj"). split; reflexivity. }
  split; [reflexivity|]. split; [exact Htag|]. split; [reflexivity|].
  exact (movie_publish_needs_a_template ex_host_no_template ex_settings ex_setting ex_item
           eq_refl Htag eq_refl eq_refl).
Defined.

(** X14. When the export command raises, the movie plugin's [publish] lets
    the exception through right after the call: nothing is logged,
    registered, created or uploaded, and the item carries no more than the
    publish template.  The export is called with whatever the template
    rendered, [None] included. *)
Theorem movie_publish_export_failure
    (h : Host) (settings : gmap string Setting) (s : Setting) (it : Item)
    (ds : list ascii) (t : val) (e : exn) :
  settings !! "Publish Template" = Some s ->
  last (findall re_v_digits (chars (name it))) = Some ("v"%char :: ds) ->
  properties (populated h s it) !! "publish_template" = Some t ->
  let fields := template_fields h it t (before_first "." (name it)) (digits_value 0 ds) in
  exportAsMediaDirect h (of_path (apply_fields h t fields))
    PremiereUploadVersionPlugin.preset 2 = Raise e ->
  run (PremiereUploadVersionPlugin.publish h settings) it
  = (Raise e,
     {| item := populated h s it;
        trace := populate_events h s ++
                 [EvApplyFields t fields;
                  EvExportAsMediaDirect (of_path (apply_fields h t fields))
                    PremiereUploadVersionPlugin.preset 2] |}).
Proof.
  intros Hs Hlast Ht fields He. subst fields.
  rewrite (movie_publish_run _ _ _ _ _ Hs Hlast).
  rewrite (movie_export_fails _ _ _ _ _ _ t e); cbn [item trace];
    rewrite ?template_fields_populated; auto.
Qed.

Lemma movie_publish_export_failure_witness :
  ex_settings !! "Publish Template" = Some ex_setting /\
  last (findall re_v_digits (chars (name ex_item))) = Some ("v"%char :: chars "003") /\
  run (PremiereUploadVersionPlugin.publish ex_host_failing_export ex_settings) ex_item
  = (Raise (HostError "export failed"),
     {| item := populated ex_host_failing_export ex_setting ex_item;
        trace := [EvSetProperty "publish_template" (VObj 1);
                  EvApplyFields (VObj 1)
                    (template_fields ex_host_failing_export ex_item (VObj 1)
                       "shot010_v003" 3);
                  EvExportAsMediaDirect (VStr ex_movie_path)
                    PremiereUploadVersionPlugin.preset 2] |}).
Proof.
  split; [reflexivity|]. split; [reflexivity|].
  exact (movie_publish_export_failure ex_host_failing_export ex_settings ex_setting ex_item
           (chars "003") (VObj 1) (HostError "export failed")
           eq_refl eq_refl eq_refl eq_refl).
Defined.

Lemma stages_of_populate h s : omap stage (populate_events h s) = [].
Proof. unfold populate_events. now destruct (truthy _). Qed.

Lemma stages_of_export h s it ds t p :
  omap stage (export_events h s it ds t p) = [Rendered; Exported].
Proof. unfold export_events. now rewrite omap_app, stages_of_populate. Qed.

Lemma hands_to_base_start h settings s it ds t p code d :
  hands_to_base h settings s it ds t p code d ->
  run (PremiereUploadVersionPlugin.publish h settings) it
  = PremiereUploadVersionPlugin.register_and_upload
      PremiereUploadVersionPlugin.module_globals h settings p
      {| item := populated h s it; trace := export_events h s it ds t p |} /\
  properties (populated h s it) !! "sg_publish_data" = Some (VDict d).
Proof.
  intros ((Hs & Hlast & Ht & Hr & He) & _ & Hd). split.
  - now apply movie_publish_reaches_registration.
  - now rewrite populated_properties_ne.
Qed.

(** X15. When the base class [publish] raises, the movie plugin's [publish]
    lets the exception through: the template was rendered, the export and
    the base class were called, and neither the Version creation nor the
    upload is attempted; the item is as the base class left it. *)
Theorem movie_publish_base_failure
    (h : Host) (settings : gmap string Setting) (s : Setting) (it it' : Item)
    (ds : list ascii) (t : val) (p : string) (code : val) (d : gmap string val)
    (e : exn) :
  hands_to_base h settings s it ds t p code d ->
  base_publish h settings (staged (populated h s it) p d) = (Raise e, it') ->
  run (PremiereUploadVersionPlugin.publish h settings) it
  = (Raise e,
     {| item := it';
        trace := export_events h s it ds t p ++ staging_events (populated h s it) p d |}) /\
  omap stage (events (run (PremiereUploadVersionPlugin.publish h settings) it))
  = [Rendered; Exported; Registered].
Proof.
  intros Hreach Hbase. destruct (hands_to_base_start _ _ _ _ _ _ _ _ _ Hreach) as [-> Hd].
  destruct Hreach as (_ & Hcode & _).
  rewrite (register_base_fails _ _ _ _ d code it' e); auto.
  split; [reflexivity|].
  unfold events. cbn [snd trace item]. now rewrite omap_app, stages_of_export.
Qed.

(** X16. When the create call raises, the movie plugin's [publish] lets the
    exception through: no upload is attempted, and the plugin has written
    neither "sg_version_data" nor "upload_path": the item is as the base
    class left it. *)
Theorem movie_publish_create_failure
    (h : Host) (settings : gmap string Setting) (s : Setting) (it it' : Item)
    (ds : list ascii) (t : val) (p : string) (code : val) (d : gmap string val)
    (renderings : list val) (e : exn) :
  hands_to_base h settings s it ds t p code d ->
  base_publish h settings (staged (populated h s it) p d) = (Return tt, it') ->
  default (VList []) (properties it' !! "published_renderings") = VList renderings ->
  shotgun_create h "Version" (version_payload it code p (published_files it' renderings))
  = Raise e ->
  result (run (PremiereUploadVersionPlugin.publish h settings) it) = Raise e /\
  final_item (run (PremiereUploadVersionPlugin.publish h settings) it) = it' /\
  omap stage (events (run (PremiereUploadVersionPlugin.publish h settings) it))
  = [Rendered; Exported; Registered; Created].
Proof.
  intros Hreach Hbase Hrs Hcreate.
  destruct (hands_to_base_start _ _ _ _ _ _ _ _ _ Hreach) as [-> Hd].
  destruct Hreach as (_ & Hcode & _).
  rewrite (register_create_fails _ _ _ _ d code it' renderings e);
    cbn [item]; rewrite ?version_payload_populated; auto.
  repeat split.
  unfold events. cbn [snd trace item]. now rewrite omap_app, stages_of_export.
Qed.

(** X17. When the upload raises, the movie plugin's [publish] lets the
    exception through with the created record already stored under
    "sg_version_data" and "upload_path" not written. *)
Theorem movie_publish_upload_failure
    (h : Host) (settings : gmap string Setting) (s : Setting) (it it' : Item)
    (ds : list ascii) (t : val) (p : string) (code : val) (d : gmap string val)
    (renderings : list val) (version id : val) (e : exn) :
  hands_to_base h settings s it ds t p code d ->
  base_publish h settings (staged (populated h s it) p d) = (Return tt, it') ->
  default (VList []) (properties it' !! "published_renderings") = VList renderings ->
  shotgun_create h "Version" (version_payload it code p (published_files it' renderings))
  = Return version ->
  subscript version "id" = Return id ->
  shotgun_upload h "Version" id p "sg_uploaded_movie" = Raise e ->
  let r := run (PremiereUploadVersionPlugin.publish h settings) it in
  result r = Raise e /\
  properties (final_item r) !! "sg_version_data" = Some version /\
  properties (final_item r) !! "upload_path" = properties it' !! "upload_path" /\
  last (events r) = Some (EvUpload "Version" id p "sg_uploaded_movie").
Proof.
  intros Hreach Hbase Hrs Hcreate Hid Hupload r. subst r.
  destruct (hands_to_base_start _ _ _ _ _ _ _ _ _ Hreach) as [-> Hd].
  destruct Hreach as (_ & Hcode & _).
  rewrite (register_upload_fails _ _ _ _ d code it' renderings version id e);
    cbn [item]; rewrite ?version_payload_populated; auto.
  unfold result, final_item, events. cbn [fst snd item trace with_properties properties].
  split; [reflexivity|]. split; [apply lookup_insert_eq|].
  split; [now rewrite lookup_insert_ne by discriminate|].
  unfold register_and_upload_events. cbn [firstn]. now rewrite last_app.
Qed.

(** X18. When the created record has no "id", the movie plugin's [publish]
    raises after it stored the record under "sg_version_data" and before
    any upload is attempted. *)
Theorem movie_publish_record_without_id
    (h : Host) (settings : gmap string Setting) (s : Setting) (it it' : Item)
    (ds : list ascii) (t : val) (p : string) (code : val) (d : gmap string val)
    (renderings : list val) (version : val) (e : exn) :
  hands_to_base h settings s it ds t p code d ->
  base_publish h settings (staged (populated h s it) p d) = (Return tt, it') ->
  default (VList []) (properties it' !! "published_renderings") = VList renderings ->
  shotgun_create h "Version" (version_payload it code p (published_files it' renderings))
  = Return version ->
  subscript version "id" = Raise e ->
  let r := run (PremiereUploadVersionPlugin.publish h settings) it in
  result r = Raise e /\
  properties (final_item r) !! "sg_version_data" = Some version /\
  omap stage (events r) = [Rendered; Exported; Registered; Created].
Proof.
  intros Hreach Hbase Hrs Hcreate Hid r. subst r.
  destruct (hands_to_base_start _ _ _ _ _ _ _ _ _ Hreach) as [-> Hd].
  destruct Hreach as (_ & Hcode & _).
  rewrite (register_no_id _ _ _ _ d code it' renderings version e);
    cbn [item]; rewrite ?version_payload_populated; auto.
  unfold result, final_item, events. cbn [fst snd item trace with_properties properties].
  split; [reflexivity|]. split; [apply lookup_insert_eq|].
  now rewrite omap_app, stages_of_export.
Qed.

(** X19. When "sg_publish_data" on the item is not a dictionary, the movie
    plugin's [publish] raises [TypeError] at line 309, after the export and
    before the base class is called; "path" and "publish_type" are already
    on the item. *)
Theorem movie_publish_publish_data_not_a_dict
    (h : Host) (settings : gmap string Setting) (s : Setting) (it : Item)
    (ds : list ascii) (t : val) (p : string) (code v : val) :
  exports_to h settings s it ds t p ->
  subscript (get_file_path_components h p) "filename" = Return code ->
  properties it !! "sg_publish_data" = Some v ->
  (forall d, v <> VDict d) ->
  let r := run (PremiereUploadVersionPlugin.publish h settings) it in
  result r = Raise TypeError /\
  properties (final_item r) !! "path" = Some (VStr p) /\
  properties (final_item r) !! "publish_type" = Some (VStr "Rendered Image") /\
  omap stage (events r) = [Rendered; Exported].
Proof.
  intros (Hs & Hlast & Ht & Hr & He) Hcode Hd Hv r. subst r.
  rewrite (movie_publish_reaches_registration _ _ _ _ _ _ _ Hs Hlast Ht Hr He).
  rewrite (register_publish_data_not_a_dict _ _ _ _ _ code v); auto.
  - unfold result, final_item, events. cbn [fst snd item trace with_properties properties].
    split; [reflexivity|]. split; [now rewrite lookup_insert_ne by discriminate; apply lookup_insert_eq|].
    split; [apply lookup_insert_eq|].
    fold (export_events h s it ds t p).
    now rewrite omap_app, stages_of_export.
  - cbn [item]. now rewrite populated_properties_ne.
Qed.

(** ** The order of the movie plugin's calls, on every run *)

Ltac stage_leaf :=
  cbn [snd trace item]; rewrite <- ?app_assoc;
  first [ exists []; split; [now rewrite app_nil_r | apply prefix_nil]
        | rewrite omap_app; eexists; split; [reflexivity|];
          cbn [omap list_omap stage app]; eexists; reflexivity ].

Lemma register_and_upload_stages h settings p st :
  exists suffix,
    omap stage
      (trace (snd (PremiereUploadVersionPlugin.register_and_upload
                     PremiereUploadVersionPlugin.module_globals h settings p st)))
    = (omap stage (trace st) ++ suffix)%list /\
    suffix `prefix_of` [Registered; Created; Uploaded].
Proof.
  unfold PremiereUploadVersionPlugin.register_and_upload, super_publish. run_monad.
  destruct (subscript _ "filename"); [|stage_leaf].
  rewrite get_version_entity_run. cbn [item trace with_properties properties context].
  rewrite get_version_entity_run. cbn [item trace with_properties properties context].
  cbn [existsb PremiereUploadVersionPlugin.module_globals String.eqb Ascii.eqb Bool.eqb orb].
  match goal with
  | |- context [?m !! "sg_publish_data"] =>
      destruct (m !! "sg_publish_data") as [v|]; [|stage_leaf]
  end.
  destruct (store_subscript v _ _) as [publish_data|]; [|stage_leaf].
  cbn [item trace properties].
  destruct (base_publish h settings _) as [[[]|e] it']; cbn [item trace]; [|stage_leaf].
  destruct (iterate _) as [renderings|]; [|stage_leaf].
  destruct (shotgun_create h _ _) as [version|]; cbn [item trace]; [|stage_leaf].
  destruct (subscript version "id") as [id|]; [|stage_leaf].
  destruct (shotgun_upload h _ _ _ _) as [[]|]; stage_leaf.
Qed.

Lemma export_and_publish_stages h settings nv st :
  exists suffix,
    omap stage
      (trace (snd (PremiereUploadVersionPlugin.export_and_publish
                     PremiereUploadVersionPlugin.module_globals h settings nv st)))
    = (omap stage (trace st) ++ suffix)%list /\
    suffix `prefix_of` all_stages.
Proof.
  unfold PremiereUploadVersionPlugin.export_and_publish, all_stages.
  unfold bind at 1, property. run_monad.
  destruct (properties (item st) !! "publish_template") as [t|]; [|stage_leaf].
  cbn [item trace].
  destruct (exportAsMediaDirect h _ _ _) as [[]|e]; [|stage_leaf].
  destruct (apply_fields h t _) as [p|]; [|stage_leaf].
  match goal with
  | |- context [PremiereUploadVersionPlugin.register_and_upload _ _ _ _ ?st2] =>
      destruct (register_and_upload_stages h settings p st2) as (suffix & -> & Hpre)
  end.
  cbn [trace]. rewrite <- !app_assoc, omap_app.
  exists ([Rendered; Exported] ++ suffix)%list. split.
  - now rewrite <- app_assoc.
  - now apply (prefix_app [Rendered; Exported]).
Qed.

(** X20. On every run of the movie plugin's [publish], whatever the host
    answers and wherever the run stops, the calls that render the template,
    export the movie, register the publish, create the Version and upload
    the movie happen at most once each and in this order: a call is made
    only after all the earlier ones. *)
Theorem movie_publish_stage_order
    (h : Host) (settings : gmap string Setting) (it : Item) :
  omap stage (events (run (PremiereUploadVersionPlugin.publish h settings) it))
    `prefix_of` all_stages.
Proof.
  destruct (settings !! "Publish Template") as [s|] eqn:Hs.
  - rewrite (movie_publish_derives _ _ _ _ Hs). unfold bind, events.
    pose proof (movie_derive_state PremiereUploadVersionPlugin.module_globals (name it)
                  {| item := populated h s it; trace := populate_events h s |}) as Hst.
    destruct (PremiereUploadVersionPlugin.derive_name_version _ _ _) as [[nv|e] st'];
      cbn [snd] in Hst; subst st'.
    + destruct (export_and_publish_stages h settings nv
                  {| item := populated h s it; trace := populate_events h s |})
        as (suffix & -> & Hpre).
      cbn [trace]. now rewrite stages_of_populate.
    + cbn [snd trace]. rewrite stages_of_populate. apply prefix_nil.
  - rewrite (movie_publish_missing_setting _ _ _ Hs). apply prefix_nil.
Qed.

(** ** What the movie plugin hands on *)

Lemma register_and_upload_extends h settings p st :
  exists rest,
    trace (snd (PremiereUploadVersionPlugin.register_and_upload
                  PremiereUploadVersionPlugin.module_globals h settings p st))
    = (trace st ++ rest)%list.
Proof.
  destruct (subscript (get_file_path_components h p) "filename") as [code|e] eqn:Hcode.
  2: { unfold PremiereUploadVersionPlugin.register_and_upload. rewrite Hcode.
       exists []. now rewrite app_nil_r. }
  unfold PremiereUploadVersionPlugin.register_and_upload, super_publish.
  rewrite Hcode. run_monad.
  rewrite get_version_entity_run. cbn [item trace with_properties properties context].
  rewrite get_version_entity_run. cbn [item trace with_properties properties context].
  cbn [existsb PremiereUploadVersionPlugin.module_globals String.eqb Ascii.eqb Bool.eqb orb].
  match goal with
  | |- context [?m !! "sg_publish_data"] => destruct (m !! "sg_publish_data") as [v|]
  end.
  2: { cbn [snd trace]. rewrite <- !app_assoc. eauto. }
  destruct (store_subscript v _ _) as [publish_data|].
  2: { cbn [snd trace]. rewrite <- !app_assoc. eauto. }
  cbn [item trace properties].
  destruct (base_publish h settings _) as [[[]|e] it']; cbn [item trace].
  2: { cbn [snd trace]. rewrite <- !app_assoc. eauto. }
  destruct (iterate _) as [renderings|].
  2: { cbn [snd trace]. rewrite <- !app_assoc. eauto. }
  destruct (shotgun_create h _ _) as [version|]; cbn [item trace].
  2: { cbn [snd trace]. rewrite <- !app_assoc. eauto. }
  destruct (subscript version "id") as [id|].
  2: { cbn [snd trace]. rewrite <- !app_assoc. eauto. }
  destruct (shotgun_upload h _ _ _ _) as [[]|];
    cbn [snd trace]; rewrite <- !app_assoc; eauto.
Qed.

Lemma register_and_upload_stages_base h settings p st d code :
  subscript (get_file_path_components h p) "filename" = Return code ->
  properties (item st) !! "sg_publish_data" = Some (VDict d) ->
  exists rest,
    trace (snd (PremiereUploadVersionPlugin.register_and_upload
                  PremiereUploadVersionPlugin.module_globals h settings p st))
    = (trace st ++ staging_events (item st) p d ++ rest)%list.
Proof.
  intros Hcode Hd.
  unfold PremiereUploadVersionPlugin.register_and_upload, super_publish.
  rewrite Hcode. run_monad.
  rewrite get_version_entity_run. cbn [item trace with_properties properties context].
  rewrite get_version_entity_run. cbn [item trace with_properties properties context].
  rewrite !lookup_insert_ne by done. rewrite Hd. cbn [store_subscript].
  cbn [existsb PremiereUploadVersionPlugin.module_globals String.eqb Ascii.eqb Bool.eqb orb].
  cbn [item trace properties]. unfold staging_events, staged.
  unfold with_properties. cbn [properties name description context context_change_allowed].
  destruct (base_publish h settings _) as [[[]|e] it']; cbn [item trace].
  2: { cbn [snd trace]. rewrite <- !app_assoc. exists []. reflexivity. }
  destruct (iterate _) as [renderings|].
  2: { cbn [snd trace]. rewrite <- !app_assoc. exists []. reflexivity. }
  destruct (shotgun_create h _ _) as [version|]; cbn [item trace].
  2: { cbn [snd trace]. rewrite <- !app_assoc. cbn [app]. eauto. }
  destruct (subscript version "id") as [id|].
  2: { cbn [snd trace]. rewrite <- !app_assoc. cbn [app]. eauto. }
  destruct (shotgun_upload h _ _ _ _) as [[]|];
    cbn [snd trace]; rewrite <- !app_assoc; cbn [app]; eauto.
Qed.

(** X21. Whenever the movie plugin's [publish] gets to call the base class,
    the item it hands over has the name, context, description and flag it
    came with; "path" is the rendered movie path and "publish_type" is
    "Rendered Image"; "sg_publish_data" is the dictionary found on the item
    with "upstream_published_files" set to the linked entity and its other
    entries untouched; every property other than these three and
    "publish_template" is as it was. *)
Theorem movie_publish_hands_annotated_item
    (h : Host) (settings : gmap string Setting) (s : Setting) (it : Item)
    (ds : list ascii) (t : val) (p : string) (code : val) (d : gmap string val) :
  hands_to_base h settings s it ds t p code d ->
  exists handed rest,
    events (run (PremiereUploadVersionPlugin.publish h settings) it)
    = (export_events h s it ds t p ++ staging_events (populated h s it) p d ++ rest)%list /\
    last (staging_events (populated h s it) p d) = Some (EvSuperPublish handed) /\
    name handed = name it /\ context handed = context it /\
    description handed = description it /\
    context_change_allowed handed = context_change_allowed it /\
    properties handed !! "path" = Some (VStr p) /\
    properties handed !! "publish_type" = Some (VStr "Rendered Image") /\
    (exists d',
        properties handed !! "sg_publish_data" = Some (VDict d') /\
        d' !! "upstream_published_files" = Some (version_entity (context it)) /\
        forall key, key <> "upstream_published_files" -> d' !! key = d !! key) /\
    (forall key,
        key <> "path" -> key <> "publish_type" -> key <> "sg_publish_data" ->
        key <> "publish_template" ->
        properties handed !! key = properties it !! key).
Proof.
  intros Hreach. destruct (hands_to_base_start _ _ _ _ _ _ _ _ _ Hreach) as [Hrun Hd].
  destruct Hreach as (_ & Hcode & _).
  destruct (register_and_upload_stages_base h settings p
              {| item := populated h s it; trace := export_events h s it ds t p |}
              d code Hcode Hd) as (rest & Hrest).
  exists (staged (populated h s it) p d), rest.
  split; [now rewrite Hrun|]. split; [reflexivity|].
  unfold staged. cbn [name context description context_change_allowed properties with_properties].
  rewrite populated_name, populated_context, populated_description.
  split; [reflexivity|]. split; [reflexivity|]. split; [reflexivity|].
  split; [unfold populated; now destruct (truthy _)|].
  split; [now rewrite !lookup_insert_ne by discriminate; apply lookup_insert_eq|].
  split; [now rewrite lookup_insert_ne by discriminate; apply lookup_insert_eq|].
  split.
  - eexists. split; [apply lookup_insert_eq|]. split; [apply lookup_insert_eq|].
    intros key Hkey. now rewrite lookup_insert_ne by congruence.
  - intros key H1 H2 H3 H4. rewrite !lookup_insert_ne by congruence.
    now apply populated_properties_ne.
Qed.

(** X22. The field mapping the movie plugin renders the template with is
    the context's mapping with "name" set to the derived name and "version"
    to the derived version: a "name" or "version" of the context is
    overridden, every other field is passed as the context gives it. *)
Theorem movie_publish_template_fields
    (h : Host) (settings : gmap string Setting) (s : Setting) (it : Item)
    (ds : list ascii) (t : val) (p : string) :
  exports_to h settings s it ds t p ->
  exists fields rest,
    events (run (PremiereUploadVersionPlugin.publish h settings) it)
    = (populate_events h s ++ EvApplyFields t fields :: rest)%list /\
    fields !! "name" = Some (VStr (before_first "." (name it))) /\
    fields !! "version" = Some (VInt (digits_value 0 ds)) /\
    (forall key, key <> "name" -> key <> "version" ->
                 fields !! key = as_template_fields h (context it) t !! key).
Proof.
  intros (Hs & Hlast & Ht & Hr & He).
  rewrite (movie_publish_reaches_registration _ _ _ _ _ _ _ Hs Hlast Ht Hr He).
  match goal with
  | |- context [PremiereUploadVersionPlugin.register_and_upload _ _ _ _ ?st2] =>
      destruct (register_and_upload_extends h settings p st2) as (rest & Hrest)
  end.
  eexists _, _. unfold events. rewrite Hrest. cbn [trace].
  split; [rewrite <- app_assoc; reflexivity|].
  unfold template_fields.
  split; [now rewrite lookup_insert_ne by discriminate; apply lookup_insert_eq|].
  split; [apply lookup_insert_eq|].
  intros key H1 H2. now rewrite !lookup_insert_ne by congruence.
Qed.

(** ** The EDL plugin's [publish], on every input *)

(** X23. On every input the EDL plugin's [publish] stops before it calls
    anything: it never logs, renders, exports, registers a publish, creates
    or uploads.  Its trace is empty or the one store of the resolved publish
    template, and the item is otherwise as it came. *)
Theorem edl_publish_calls_nothing
    (h : Host) (settings : gmap string Setting) (it : Item) :
  let r := run (PremiereUploadEDLPlugin.publish h settings) it in
  (exists e, result r = Raise e) /\
  ((events r = [] /\ final_item r = it) \/
   (exists s, settings !! "Publish Template" = Some s /\
              events r = [EvSetProperty "publish_template" (get_template_by_name h (value s))] /\
              final_item r
              = with_properties it
                  (<["publish_template" := get_template_by_name h (value s)]>
                     (properties it)))) /\
  Forall (fun ev => registers ev = false /\ renders_or_exports ev = false /\
                    forall lvl msg extra, ev <> EvLog lvl msg extra)
    (events r).
Proof.
  intros r. subst r.
  assert (Hq : forall s,
             Forall (fun ev => registers ev = false /\ renders_or_exports ev = false /\
                               forall lvl msg extra, ev <> EvLog lvl msg extra)
               (populate_events h s)).
  { intros s. unfold populate_events. destruct (truthy _); repeat constructor; discriminate. }
  assert (Hshape : forall s,
             settings !! "Publish Template" = Some s ->
             (populate_events h s = [] /\ populated h s it = it) \/
             (exists s0, settings !! "Publish Template" = Some s0 /\
                populate_events h s
                = [EvSetProperty "publish_template" (get_template_by_name h (value s0))] /\
                populated h s it
                = with_properties it
                    (<["publish_template" := get_template_by_name h (value s0)]>
                       (properties it)))).
  { intros s Hs. unfold populate_events, populated.
    destruct (truthy _); [right; now exists s | left; split; reflexivity]. }
  destruct (settings !! "Publish Template") as [s|] eqn:Hs.
  - destruct (contains "." (name it)) eqn:Hdot.
    + rewrite (edl_publish_dot_run _ _ _ _ Hs Hdot).
      unfold result, events, final_item. cbn [fst snd item trace].
      split; [eauto|]. split; [now apply Hshape | apply Hq].
    + rewrite (edl_publish_run _ _ _ _ Hs). unfold bind.
      rewrite (edl_derive_no_dot _ _ _ Hdot).
      unfold result, events, final_item. cbn [fst snd item trace].
      split; [eauto|]. split; [now apply Hshape | apply Hq].
  - rewrite (edl_publish_missing_setting _ _ _ Hs).
    split; [eauto|]. split; [left; split; reflexivity | constructor].
Qed.

(** ** The further properties on the sample inputs *)

(** X15 on a host whose base class raises. *)
Lemma movie_publish_base_failure_witness :
  hands_to_base ex_host_failing_base ex_settings ex_setting ex_item (chars "003")
    (VObj 1) ex_movie_path (VStr "shot010_v003.mov") ex_publish_data /\
  result (run (PremiereUploadVersionPlugin.publish ex_host_failing_base ex_settings) ex_item)
  = Raise (HostError "publish failed") /\
  omap stage
    (events (run (PremiereUploadVersionPlugin.publish ex_host_failing_base ex_settings)
               ex_item))
  = [Rendered; Exported; Registered].
Proof.
  assert (Hreach : hands_to_base ex_host_failing_base ex_settings ex_setting ex_item
                     (chars "003") (VObj 1) ex_movie_path (VStr "shot010_v003.mov")
                     ex_publish_data).
  { unfold hands_to_base, exports_to. repeat split; reflexivity. }
  split; [exact Hreach|].
  destruct (movie_publish_base_failure ex_host_failing_base ex_settings ex_setting ex_item
              (staged (populated ex_host_failing_base ex_setting ex_item) ex_movie_path
                 ex_publish_data)
              (chars "003") (VObj 1) ex_movie_path (VStr "shot010_v003.mov")
              ex_publish_data (HostError "publish failed") Hreach eq_refl) as [Hrun Hst].
  split; [now rewrite Hrun | exact Hst].
Defined.

(** X16 on a host whose create call raises. *)
Lemma movie_publish_create_failure_witness :
  hands_to_base ex_host_failing_create ex_settings ex_setting ex_item (chars "003")
    (VObj 1) ex_movie_path (VStr "shot010_v003.mov") ex_publish_data /\
  result (run (PremiereUploadVersionPlugin.publish ex_host_failing_create ex_settings)
            ex_item)
  = Raise (HostError "create failed") /\
  properties
    (final_item (run (PremiereUploadVersionPlugin.publish ex_host_failing_create
                        ex_settings) ex_item)) !! "sg_version_data" = None /\
  omap stage
    (events (run (PremiereUploadVersionPlugin.publish ex_host_failing_create ex_settings)
               ex_item))
  = [Rendered; Exported; Registered; Created].
Proof.
  assert (Hreach : hands_to_base ex_host_failing_create ex_settings ex_setting ex_item
                     (chars "003") (VObj 1) ex_movie_path (VStr "shot010_v003.mov")
                     ex_publish_data).
  { unfold hands_to_base, exports_to. repeat split; reflexivity. }
  split; [exact Hreach|].
  destruct (movie_publish_create_failure ex_host_failing_create ex_settings ex_setting
              ex_item
              (staged (populated ex_host_failing_create ex_setting ex_item) ex_movie_path
                 ex_publish_data)
              (chars "003") (VObj 1) ex_movie_path (VStr "shot010_v003.mov")
              ex_publish_data [] (HostError "create failed") Hreach eq_refl eq_refl eq_refl)
    as (Hres & Hitem & Hst).
  split; [exact Hres|]. split; [now rewrite Hitem | exact Hst].
Defined.

(** X17 on a host whose upload raises. *)
Lemma movie_publish_upload_failure_witness :
  hands_to_base ex_host_failing_upload ex_settings ex_setting ex_item (chars "003")
    (VObj 1) ex_movie_path (VStr "shot010_v003.mov") ex_publish_data /\
  result (run (PremiereUploadVersionPlugin.publish ex_host_failing_upload ex_settings)
            ex_item)
  = Raise (HostError "upload failed") /\
  properties
    (final_item (run (PremiereUploadVersionPlugin.publish ex_host_failing_upload
                        ex_settings) ex_item)) !! "sg_version_data" = Some ex_version /\
  properties
    (final_item (run (PremiereUploadVersionPlugin.publish ex_host_failing_upload
                        ex_settings) ex_item)) !! "upload_path" = None.
Proof.
  assert (Hreach : hands_to_base ex_host_failing_upload ex_settings ex_setting ex_item
                     (chars "003") (VObj 1) ex_movie_path (VStr "shot010_v003.mov")
                     ex_publish_data).
  { unfold hands_to_base, exports_to. repeat split; reflexivity. }
  split; [exact Hreach|].
  destruct (movie_publish_upload_failure ex_host_failing_upload ex_settings ex_setting
              ex_item
              (staged (populated ex_host_failing_upload ex_setting ex_item) ex_movie_path
                 ex_publish_data)
              (chars "003") (VObj 1) ex_movie_path (VStr "shot010_v003.mov")
              ex_publish_data [] ex_version (VInt 42) (HostError "upload failed")
              Hreach eq_refl eq_refl eq_refl eq_refl eq_refl)
    as (Hres & Hversion & Hpath & _).
  split; [exact Hres|]. split; [exact Hversion|]. now rewrite Hpath.
Defined.

(** X18 on a host whose create call answers without an id. *)
Lemma movie_publish_record_without_id_witness :
  hands_to_base ex_host_no_id ex_settings ex_setting ex_item (chars "003")
    (VObj 1) ex_movie_path (VStr "shot010_v003.mov") ex_publish_data /\
  result (run (PremiereUploadVersionPlugin.publish ex_host_no_id ex_settings) ex_item)
  = Raise (KeyError "id") /\
  omap stage
    (events (run (PremiereUploadVersionPlugin.publish ex_host_no_id ex_settings) ex_item))
  = [Rendered; Exported; Registered; Created].
Proof.
  assert (Hreach : hands_to_base ex_host_no_id ex_settings ex_setting ex_item
                     (chars "003") (VObj 1) ex_movie_path (VStr "shot010_v003.mov")
                     ex_publish_data).
  { unfold hands_to_base, exports_to. repeat split; reflexivity. }
  split; [exact Hreach|].
  destruct (movie_publish_record_without_id ex_host_no_id ex_settings ex_setting ex_item
              (staged (populated ex_host_no_id ex_setting ex_item) ex_movie_path
                 ex_publish_data)
              (chars "003") (VObj 1) ex_movie_path (VStr "shot010_v003.mov")
              ex_publish_data []
              (VDict (version_payload ex_item (VStr "shot010_v003.mov") ex_movie_path
                        (published_files
                           (staged (populated ex_host_no_id ex_setting ex_item)
                              ex_movie_path ex_publish_data) [])))
              (KeyError "id") Hreach eq_refl eq_refl eq_refl eq_refl)
    as (Hres & _ & Hst).
  split; [exact Hres | exact Hst].
Defined.

(** X19 on an item whose "sg_publish_data" is a string. *)
Lemma movie_publish_publish_data_not_a_dict_witness :
  exports_to ex_host ex_settings ex_setting ex_item_odd_publish_data (chars "003")
    (VObj 1) ex_movie_path /\
  properties ex_item_odd_publish_data !! "sg_publish_data" = Some (VStr "published") /\
  result (run (PremiereUploadVersionPlugin.publish ex_host ex_settings)
            ex_item_odd_publish_data)
  = Raise TypeError /\
  omap stage
    (events (run (PremiereUploadVersionPlugin.publish ex_host ex_settings)
               ex_item_odd_publish_data))
  = [Rendered; Exported].
Proof.
  assert (Hreach : exports_to ex_host ex_settings ex_setting ex_item_odd_publish_data
                     (chars "003") (VObj 1) ex_movie_path).
  { unfold exports_to. repeat split; reflexivity. }
  split; [exact Hreach|]. split; [reflexivity|].
  destruct (movie_publish_publish_data_not_a_dict ex_host ex_settings ex_setting
              ex_item_odd_publish_data (chars "003") (VObj 1) ex_movie_path
              (VStr "shot010_v003.mov") (VStr "published") Hreach eq_refl eq_refl
              ltac:(discriminate))
    as (Hres & _ & _ & Hst).
  split; [exact Hres | exact Hst].
Defined.

(** X21 on the sample run. *)
Lemma movie_publish_hands_annotated_item_witness :
  hands_to_base ex_host ex_settings ex_setting ex_item (chars "003")
    (VObj 1) ex_movie_path (VStr "shot010_v003.mov") ex_publish_data /\
  exists handed,
    In (EvSuperPublish handed)
       (events (run (PremiereUploadVersionPlugin.publish ex_host ex_settings) ex_item)) /\
    name handed = "shot010_v003.prproj" /\
    properties handed !! "path" = Some (VStr ex_movie_path) /\
    properties handed !! "work_template" = Some (VObj 2).
Proof.
  assert (Hreach : hands_to_base ex_host ex_settings ex_setting ex_item
                     (chars "003") (VObj 1) ex_movie_path (VStr "shot010_v003.mov")
                     ex_publish_data).
  { unfold hands_to_base, exports_to. repeat split; reflexivity. }
  split; [exact Hreach|].
  destruct (movie_publish_hands_annotated_item ex_host ex_settings ex_setting ex_item
              (chars "003") (VObj 1) ex_movie_path (VStr "shot010_v003.mov")
              ex_publish_data Hreach)
    as (handed & rest & Hev & Hlast & Hname & _ & _ & _ & Hpath & _ & _ & Hkeep).
  exists handed. split; [|split; [exact Hname|split; [exact Hpath|]]].
  - rewrite Hev. apply in_or_app. right. apply in_or_app. left.
    apply last_In. exact Hlast.
  - rewrite Hkeep by discriminate. reflexivity.
Defined.

(** X22 on the sample run. *)
Lemma movie_publish_template_fields_witness :
  exports_to ex_host ex_settings ex_setting ex_item (chars "003") (VObj 1) ex_movie_path /\
  exists fields rest,
    events (run (PremiereUploadVersionPlugin.publish ex_host ex_settings) ex_item)
    = (populate_events ex_host ex_setting ++ EvApplyFields (VObj 1) fields :: rest)%list /\
    fields !! "name" = Some (VStr "shot010_v003") /\
    fields !! "version" = Some (VInt 3) /\
    fields !! "Shot" = Some (VStr "shot010").
Proof.
  assert (Hreach : exports_to ex_host ex_settings ex_setting ex_item
                     (chars "003") (VObj 1) ex_movie_path).
  { unfold exports_to. repeat split; reflexivity. }
  split; [exact Hreach|].
  destruct (movie_publish_template_fields ex_host ex_settings ex_setting ex_item
              (chars "003") (VObj 1) ex_movie_path Hreach)
    as (fields & rest & Hev & Hname & Hver & Hkeep).
  exists fields, rest. split; [exact Hev|]. split; [exact Hname|]. split; [exact Hver|].
  rewrite Hkeep by discriminate. reflexivity.
Defined.
